(** * ODK drop-box server (odk_server.py): a shallow embedding

    The server accepts multipart submissions from ODK Collect and writes the
    uploaded parts under [data_dir/<form name>/<timestamp>/].  This file
    embeds the request handlers of class [fileUpload] together with the
    library functions they call ([str] methods, [os.path], [re], [glob],
    [cgi.FieldStorage] lookups), and states the properties of the
    specification over that embedding.  The library is the one of the
    interpreter the program names in its first line, Python 2.4, on a POSIX
    system.

    Layout:
    - [PyStr]    Python 2 byte-string methods used by the server;
    - [OsPath]   the POSIX flavour of [os.path];
    - [Re]       the one regular expression of the program;
    - [Py]       exceptions;
    - [Fs]       the part of the file system the handlers touch;
    - [PyIO]     the monad of the handlers: file system and exceptions;
    - [Cgi]      parsed multipart forms ([cgi.FieldStorage]);
    - [Http]     what the handlers read of the request and write of the
                 response;
    - [Clock]    [datetime.now()] and [strftime];
    - [Glob]     [glob.glob] for the pattern of [formList], over the
                 directories [os.listdir] shows;
    - [Server]   [MakeDirIfAbsent] and class [fileUpload];
    - [Model]    the notions the statements are written with;
    - [Scenario] the requests of the scenarios;
    - [Shape]    texts up to the value of their digits;
    - [Placement] the bytes of a part;
    - [Cases]    more requests;
    - [Tempfile] [TemporaryFileWrapper] and [make_file];
    - [Pages]    the test page [index].

    A form is taken as [cgi] has parsed it: the parsing of the body and the
    threads of CherryPy are outside this file. *)

From stdpp Require Import gmap strings list.
From Stdlib Require Import Ascii String ZArith Lia.

Local Open Scope string_scope.

(** Characters that cannot be written inside a string literal. *)
Definition nl : ascii := "010"%char.
Definition dquote : ascii := "034"%char.

(** ** Python 2 [str] methods *)
Module PyStr.

(** [len(s)] *)
Definition len (s : string) : nat := String.length s.

(** [s.startswith(p)] *)
Fixpoint startswith (p s : string) : bool :=
  match p, s with
  | EmptyString, _ => true
  | String a p', String b s' => Ascii.eqb a b && startswith p' s'
  | String _ _, EmptyString => false
  end.

(** [s.endswith(suf)]: some suffix of [s] is [suf]. *)
Fixpoint endswith (suf s : string) : bool :=
  String.eqb s suf ||
  match s with
  | EmptyString => false
  | String _ s' => endswith suf s'
  end.

(** [s[:n]] and [s[n:]] for [0 <= n]. *)
Fixpoint take (n : nat) (s : string) : string :=
  match n, s with
  | S k, String c s' => String c (take k s')
  | _, _ => EmptyString
  end.

Fixpoint drop (n : nat) (s : string) : string :=
  match n, s with
  | S k, String _ s' => drop k s'
  | _, _ => s
  end.

(** [old in s] *)
Fixpoint contains (old s : string) : bool :=
  startswith old s ||
  match s with
  | EmptyString => false
  | String _ s' => contains old s'
  end.

(** [s.rfind(c)] for a one-character [c]: the highest index of [c] in [s],
    [-1] when there is none. *)
Fixpoint rfind (c : ascii) (s : string) : Z :=
  match s with
  | EmptyString => (-1)%Z
  | String x s' =>
      let i := rfind c s' in
      if (0 <=? i)%Z then (i + 1)%Z
      else if Ascii.eqb x c then 0%Z else (-1)%Z
  end.

(** [s.replace(old, new)] for a non-empty [old]: the occurrences of [old]
    are found left to right and do not overlap; the scan resumes after the
    end of each occurrence, so text put together by a removal is not looked
    at again.  [skip] counts the characters of the current occurrence that
    are still to be passed over. *)
Fixpoint replace_from (old new : string) (skip : nat) (s : string) : string :=
  match s with
  | EmptyString => EmptyString
  | String c s' =>
      match skip with
      | S k => replace_from old new k s'
      | O =>
          if startswith old s
          then new +:+ replace_from old new (len old - 1) s'
          else String c (replace_from old new 0 s')
      end
  end.

Definition replace (s old new : string) : string :=
  replace_from old new 0 s.

(** [s.lower()] in the C locale: only [A-Z] change. *)
Definition lower_char (c : ascii) : ascii :=
  let n := nat_of_ascii c in
  if (65 <=? n)%nat && (n <=? 90)%nat then ascii_of_nat (n + 32) else c.

Fixpoint lower (s : string) : string :=
  match s with
  | EmptyString => EmptyString
  | String c s' => String (lower_char c) (lower s')
  end.

(** [s.split(sep)] for a one-character [sep]; never the empty list. *)
Fixpoint split (sep : ascii) (s : string) : list string :=
  match s with
  | EmptyString => [EmptyString]
  | String c s' =>
      if Ascii.eqb c sep then EmptyString :: split sep s'
      else match split sep s' with
           | h :: t => String c h :: t
           | [] => [String c EmptyString]
           end
  end.

(** [x in l] for a list of strings. *)
Definition mem (x : string) (l : list string) : bool :=
  existsb (String.eqb x) l.

(** [''.join(l)] *)
Definition concat (l : list string) : string :=
  fold_right String.append EmptyString l.

End PyStr.

(** ** [os.path] (posixpath) *)
Module OsPath.

(** [os.path.join(path, b)]: one round of the loop of [posixpath.join]. *)
Definition join2 (path b : string) : string :=
  if PyStr.startswith "/" b then b
  else if String.eqb path "" || PyStr.endswith "/" path then path +:+ b
  else path +:+ "/" +:+ b.

(** [os.path.join(a, *p)] *)
Definition join (a : string) (p : list string) : string :=
  fold_left join2 p a.

(** [os.path.basename(p)]: [p[p.rfind('/') + 1:]] *)
Definition basename (p : string) : string :=
  PyStr.drop (Z.to_nat (PyStr.rfind "/" p + 1)) p.

(** [os.path.splitext(p)]:
    [i = p.rfind('.')], then [(p, '')] if [i <= p.rfind('/')] and
    [(p[:i], p[i:])] otherwise. *)
Definition splitext (p : string) : string * string :=
  let i := PyStr.rfind "." p in
  if (i <=? PyStr.rfind "/" p)%Z then (p, "")
  else (PyStr.take (Z.to_nat i) p, PyStr.drop (Z.to_nat i) p).

(** [head == '/' * len(head)] *)
Fixpoint all_slashes (head : string) : bool :=
  match head with
  | EmptyString => true
  | String c head' => Ascii.eqb c "/" && all_slashes head'
  end.

(** The slashes at the end of [head] taken off, for a [head] that does not
    consist of slashes only. *)
Fixpoint strip_slashes (head : string) : string :=
  match head with
  | EmptyString => EmptyString
  | String c head' =>
      if all_slashes head then EmptyString else String c (strip_slashes head')
  end.

(** [os.path.split(p)]: [i = p.rfind('/') + 1], [head, tail = p[:i], p[i:]],
    and the slashes at the end of [head] are taken off unless [head] is
    empty or consists of slashes only. *)
Definition split (p : string) : string * string :=
  let i := Z.to_nat (PyStr.rfind "/" p + 1) in
  let head := PyStr.take i p in
  let tail := PyStr.drop i p in
  (if negb (String.eqb head "") && negb (all_slashes head)
   then strip_slashes head else head,
   tail).

End OsPath.

(** ** The regular expression of [MakeDataDirForForm]

    The pattern is a caret, a first group holding dot-star, and a second
    group [[0-9]{4}-[0-9]{2}-[0-9]{2}_[0-9]{2}-[0-9]{2}-[0-9]{2}]; it is used
    with [search] and without flags. *)
Module Re.

Inductive item := Digit | Lit (c : ascii).

(** The second group, one item per character. *)
Definition date_items : list item :=
  [Digit; Digit; Digit; Digit; Lit "-"; Digit; Digit; Lit "-"; Digit; Digit;
   Lit "_";
   Digit; Digit; Lit "-"; Digit; Digit; Lit "-"; Digit; Digit].

(** [[0-9]] on a byte string *)
Definition is_digit (c : ascii) : bool :=
  let n := nat_of_ascii c in (48 <=? n)%nat && (n <=? 57)%nat.

Definition item_matches (i : item) (c : ascii) : bool :=
  match i with
  | Digit => is_digit c
  | Lit l => Ascii.eqb c l
  end.

(** Matches the items at the start of [s]; the result is the matched text. *)
Fixpoint match_items (items : list item) (s : string) : option string :=
  match items, s with
  | [], _ => Some EmptyString
  | i :: items', String c s' =>
      if item_matches i c
      then match match_items items' s' with
           | Some m => Some (String c m)
           | None => None
           end
      else None
  | _ :: _, EmptyString => None
  end.

(** [date_pattern.search(s)], as [(group(1), group(2))].  The caret pins
    the match to the start of [s].  The dot-star group is greedy and its dot
    does not match a newline: the engine first lets it run to the first
    newline (or the end of [s]) and gives characters back one at a time
    until the date matches behind it.  So the longer prefix is tried before
    the shorter one, and no prefix goes past a newline. *)
Fixpoint date_search (s : string) : option (string * string) :=
  let here :=
    match match_items date_items s with
    | Some d => Some (EmptyString, d)
    | None => None
    end in
  match s with
  | EmptyString => here
  | String c s' =>
      if Ascii.eqb c nl then here
      else match date_search s' with
           | Some (g1, g2) => Some (String c g1, g2)
           | None => here
           end
  end.

End Re.

(** ** Exceptions *)
Module Py.

Inductive exn :=
| AttributeError (msg : string)
| KeyError (key : string).

Inductive result (A : Type) :=
| Ok (a : A)
| Raise (e : exn).
Arguments Ok {A} a.
Arguments Raise {A} e.

#[global] Instance result_ret : MRet result := fun A a => Ok a.
#[global] Instance result_bind : MBind result := fun A B f r =>
  match r with
  | Ok a => f a
  | Raise e => Raise e
  end.

(** The receiver of a call of the [str] method [meth], which may be
    [None]. *)
Definition receiver (meth : string) (v : option string) : result string :=
  match v with
  | Some s => Ok s
  | None =>
      Raise (AttributeError
               ("'NoneType' object has no attribute '" +:+ meth +:+ "'"))
  end.

End Py.

(** ** The file system

    Directories and files are known by the path string handed to the
    operating system: a path stands for itself, and two spellings of one
    file are two keys.  Only what the handlers create or test is kept: the
    directories made by [os.makedirs] (the leaf; its parents are never
    tested by the program) and the contents of the files written.

    The operations are those of a run in which no call of the operating
    system fails.  In the program [os.makedirs], [open] and [shutil.move]
    raise [OSError] or [IOError] when the operating system refuses (a
    directory that is missing on the way to the target, a target that is a
    directory, a full disk, a missing permission), and the request ends
    there.  Such runs are not runs of this model.  So the statements below
    on what [submission] answers to any request, and on what the turn of a
    part leaves on disk, are about the runs that get there: the completed
    run is their hypothesis.  The scenarios are run in a file system in
    which no call fails. *)
Module Fs.

Record filesystem := {
  dirs : gset string;
  files : gmap string string
}.

Definition empty : filesystem := {| dirs := ∅; files := ∅ |}.

(** [os.path.isdir(d)] *)
Definition isdir (d : string) (fs : filesystem) : bool :=
  bool_decide (d ∈ dirs fs).

(** [os.makedirs(d)] *)
Definition makedirs (d : string) (fs : filesystem) : filesystem :=
  {| dirs := {[d]} ∪ dirs fs; files := files fs |}.

(** [f = open(path, 'w+b'); f.write(data); f.close()] *)
Definition write (path data : string) (fs : filesystem) : filesystem :=
  {| dirs := dirs fs; files := <[path := data]> (files fs) |}.

(** [shutil.move(src, dst)] of a file holding [data] *)
Definition move (src data dst : string) (fs : filesystem) : filesystem :=
  {| dirs := dirs fs; files := <[dst := data]> (delete src (files fs)) |}.

End Fs.

(** ** The monad of the handlers *)
Module PyIO.
Import Py.

(** A computation may change the file system and then return or raise;
    what it did before raising stays done. *)
Definition M (A : Type) : Type :=
  Fs.filesystem -> Fs.filesystem * result A.

#[global] Instance M_ret : MRet M := fun A a fs => (fs, Ok a).
#[global] Instance M_bind : MBind M := fun A B f m fs =>
  match m fs with
  | (fs', Ok a) => f a fs'
  | (fs', Raise e) => (fs', Raise e)
  end.

Definition lift {A} (r : result A) : M A := fun fs => (fs, r).
Definition get_fs : M Fs.filesystem := fun fs => (fs, Ok fs).
Definition modify_fs (f : Fs.filesystem -> Fs.filesystem) : M unit :=
  fun fs => (f fs, Ok tt).

End PyIO.

(** ** Parsed multipart forms: [cgi.FieldStorage] *)
Module Cgi.
Import Py.

(** The [file] attribute of a part: [cgi] keeps a short body in a
    [cStringIO] object, which has no [name], and sends a long one to the
    file [make_file] returns, here a [TemporaryFileWrapper] whose [name]
    is the path given by [tempfile.mkstemp].  Both carry the bytes
    received. *)
Inductive storage :=
| StringIO (data : string)
| TempFile (name : string) (data : string).

(** One part.  [filename] is [None] for a part whose content disposition
    has no [filename] parameter, that is for a plain form field. *)
Record part := {
  name : string;
  filename : option string;
  file : storage
}.

(** [FieldStorage.keys()], which [__iter__] iterates: the names of the
    parts in the order of their first appearance. *)
Definition keys (form_fields : list part) : list string :=
  fold_left
    (fun keys item =>
       if PyStr.mem (name item) keys then keys
       else (keys ++ [name item])%list)
    form_fields [].

(** [form_fields[key]] is the part of that name, or the list of them when
    there are several. *)
Inductive value :=
| One (item : part)
| Many (found : list part).

Definition getitem (form_fields : list part) (key : string) : result value :=
  match List.filter (fun item => String.eqb (name item) key) form_fields with
  | [] => Raise (KeyError key)
  | [item] => Ok (One item)
  | found => Ok (Many found)
  end.

(** [v.filename] and [v.file]: a list has neither attribute. *)
Definition get_filename (v : value) : result (option string) :=
  match v with
  | One item => Ok (filename item)
  | Many _ =>
      Raise (AttributeError "'list' object has no attribute 'filename'")
  end.

Definition get_file (v : value) : result storage :=
  match v with
  | One item => Ok (file item)
  | Many _ => Raise (AttributeError "'list' object has no attribute 'file'")
  end.

End Cgi.

(** ** Requests and responses, as CherryPy shows them to a handler *)
Module Http.
Import Py.

(** [cherrypy.request]: its [scheme] ([http] or [https]) and its
    [headers]. *)
Record request := {
  scheme : string;
  headers : list (string * string)
}.

(** [cherrypy.request.headers[key]]: the header map does not look at the
    case of the key. *)
Definition header (req : request) (key : string) : result string :=
  match
    List.find
      (fun kv => String.eqb (PyStr.lower (fst kv)) (PyStr.lower key))
      (headers req)
  with
  | Some kv => Ok (snd kv)
  | None => Raise (KeyError key)
  end.

Record response := {
  status : nat;
  response_headers : list (string * string);
  body : string
}.

(** The response to a handler that returns [body] and sets nothing else:
    CherryPy answers [200 OK]. *)
Definition plain (body : string) : response :=
  {| status := 200; response_headers := []; body := body |}.

End Http.

(** ** [datetime.datetime.now()] and [strftime] *)
Module Clock.

Record datetime := {
  year : nat; month : nat; day : nat;
  hour : nat; minute : nat; second : nat
}.

Definition digit (n : nat) : ascii := ascii_of_nat (48 + n mod 10).

(** Zero-padded decimal fields, as [%m], [%d], [%H], [%M], [%S] print two
    digits and [%Y] four, the fields of a [datetime] being in their ranges
    (the year at most 9999). *)
Definition pad2 (n : nat) : string :=
  String (digit (n / 10)) (String (digit n) EmptyString).

Definition pad4 (n : nat) : string :=
  String (digit (n / 1000)) (String (digit (n / 100)) (pad2 n)).

(** [timestamp.strftime('%Y-%m-%d_%H-%M-%S')] *)
Definition strftime (t : datetime) : string :=
  pad4 (year t) +:+ "-" +:+ pad2 (month t) +:+ "-" +:+ pad2 (day t) +:+ "_"
  +:+ pad2 (hour t) +:+ "-" +:+ pad2 (minute t) +:+ "-" +:+ pad2 (second t).

End Clock.

(** ** [glob.glob] on a pattern [<directory>/*.xml] *)
Module Glob.

(** [fnmatch] turns the pattern [*.xml] into a regular expression: any
    run of characters other than newline, then [.xml], then the end of the
    name, which the dollar sign also sees before one last newline; the
    expression is matched from the start of the name. *)
Fixpoint fnmatch_star_xml (entry : string) : bool :=
  String.eqb entry ".xml" || String.eqb entry (".xml" +:+ String nl "") ||
  match entry with
  | EmptyString => false
  | String c entry' => negb (Ascii.eqb c nl) && fnmatch_star_xml entry'
  end.

(** [glob1(dirname, '*.xml')] keeps the entries [fnmatch] accepts, those
    that start with a dot left out as the pattern does not start with
    one. *)
Definition star_xml (entry : string) : bool :=
  negb (PyStr.startswith "." entry) && fnmatch_star_xml entry.

(** [has_magic(s)]: one of the pattern characters star, question mark and
    opening bracket is in [s]. *)
Definition is_magic (c : ascii) : bool :=
  Ascii.eqb c "*" || Ascii.eqb c "?" || Ascii.eqb c "[".

Fixpoint has_magic (s : string) : bool :=
  match s with
  | EmptyString => false
  | String c s' => is_magic c || has_magic s'
  end.

(** What [glob] sees of the file system: [listdir dirname] is the list
    [os.listdir(dirname)] gives, empty when it raises ([glob1] returns the
    empty list then); [expand dirname] is the list of the paths that match
    [dirname] when it holds pattern characters, the result of the call of
    [glob] on the directory part of a pattern. *)
Record directories := {
  listdir : string -> list string;
  expand : string -> list string
}.

(** [glob1(dirname, '*.xml')]: an empty [dirname] stands for the current
    directory. *)
Definition glob1_xml (seen : directories) (dirname : string) : list string :=
  let dirname := if String.eqb dirname "" then "." else dirname in
  List.filter star_xml (listdir seen dirname).

(** [glob.glob(pathname)] for a [pathname] that ends in [/*.xml] or is
    [*.xml]: it holds a pattern character, [os.path.split] cuts it into
    [dirname] and the pattern [*.xml], and the matching entries of each
    directory are put behind the directory. *)
Definition glob_xml (seen : directories) (pathname : string) : list string :=
  let dirname := fst (OsPath.split pathname) in
  if String.eqb dirname "" then glob1_xml seen "."
  else
    let list := if has_magic dirname then expand seen dirname else [dirname] in
    flat_map
      (fun dirname => List.map (OsPath.join2 dirname) (glob1_xml seen dirname))
      list.

End Glob.

(** ** The server *)
Module Server.
Import Py PyIO.

(** [MakeDirIfAbsent(dir_name)] *)
Definition MakeDirIfAbsent (dir_name : string) : M unit :=
  fs ← get_fs;
  if negb (Fs.isdir dir_name fs) then modify_fs (Fs.makedirs dir_name)
  else mret tt.

(** The attributes [__init__] sets. *)
Record fileUpload := {
  data_dir : string;
  forms_dir : string;
  allowed_file_types : list string
}.

(** [fileUpload(data_dir, forms_dir, allowed_file_types)] *)
Definition init (data_dir forms_dir allowed_file_types : string) : fileUpload :=
  {| data_dir := data_dir;
     forms_dir := forms_dir;
     allowed_file_types := PyStr.split "," allowed_file_types |}.

(** The [for] loop of [MakeDataDirForForm] over the fields still to visit;
    the result is [(form_name, form_date)] when the loop is left, by
    [break] or at its end. *)
Fixpoint scan_fields (form_fields : list Cgi.part) (fields : list string)
    (form_name : string) (form_date : option string)
    : result (string * option string) :=
  match fields with
  | [] => Ok (form_name, form_date)
  | field :: fields' =>
      v ← Cgi.getitem form_fields field;
      file_name ← Cgi.get_filename v;
      file_name ← receiver "endswith" file_name;
      if PyStr.endswith ".xml" file_name then
        match Re.date_search file_name with
        | Some (group1, group2) => Ok (PyStr.lower group1, Some group2)
        | None => scan_fields form_fields fields' form_name form_date
        end
      else scan_fields form_fields fields' form_name form_date
  end.

(** [not form_date] *)
Definition falsy (form_date : option string) : bool :=
  match form_date with
  | None | Some EmptyString => true
  | Some _ => false
  end.

(** [self.MakeDataDirForForm(form_fields)], run when the clock shows
    [now]. *)
Definition MakeDataDirForForm (self : fileUpload) (now : Clock.datetime)
    (form_fields : list Cgi.part) : M string :=
  '(form_name, form_date) ←
    lift (scan_fields form_fields (Cgi.keys form_fields) "unnamed" None);
  let form_date :=
    if falsy form_date then Clock.strftime now else default "" form_date in
  let form_dir := OsPath.join (data_dir self) [form_name; form_date] in
  MakeDirIfAbsent form_dir;;
  mret form_dir.

(** [self.formList()], [seen] being what [glob] sees of the file system.
    The loop first. *)
Fixpoint form_lines (req : Http.request) (xml_forms : list string)
    (form_list_xml : string) : result string :=
  match xml_forms with
  | [] => Ok form_list_xml
  | xml_form :: xml_forms' =>
      let xml_form_base := OsPath.basename xml_form in
      let form_name := fst (OsPath.splitext xml_form_base) in
      host ← Http.header req "Host";
      let form_url := "http://" +:+ host +:+ "/forms/" +:+ xml_form_base in
      form_lines req xml_forms'
        (form_list_xml +:+ "<form url=" +:+ String dquote form_url
           +:+ String dquote ">" +:+ form_name +:+ "</form>"
           +:+ String nl "")
  end.

Definition formList (self : fileUpload) (req : Http.request)
    (seen : Glob.directories) : result Http.response :=
  form_list_xml ←
    form_lines req (Glob.glob_xml seen (OsPath.join (forms_dir self) ["*.xml"]))
      ("<forms>" +:+ String nl "");
  mret (Http.plain (form_list_xml +:+ "</forms>" +:+ String nl "")).

(** The note for a part that is not kept. *)
Definition not_configured (ext : string) : string :=
  "Server not configured to save " +:+ String dquote "*." +:+ ext
  +:+ String dquote " files<br>".

(** [form_file.filename.replace('../', '').replace('..\\', '')] *)
Definition sanitize (filename : string) : string :=
  PyStr.replace (PyStr.replace filename "../" "") "..\" "".

(** Moving the bytes of a part to [target_file_path]. *)
Definition transfer (file : Cgi.storage) (target_file_path : string) : M unit :=
  match file with
  | Cgi.StringIO data => modify_fs (Fs.write target_file_path data)
  | Cgi.TempFile name data => modify_fs (Fs.move name data target_file_path)
  end.

(** One round of the [for] loop of [submission]. *)
Definition store_field (self : fileUpload) (submission_dir : string)
    (form_fields : list Cgi.part) (field : string) (html_response : string)
    : M string :=
  form_file ← lift (Cgi.getitem form_fields field);
  filename ← lift (Cgi.get_filename form_file);
  filename ← lift (receiver "rfind" filename);
  let ext := snd (OsPath.splitext filename) in
  let ext := PyStr.replace ext "." "" in
  if negb (PyStr.mem ext (allowed_file_types self)) then
    mret (html_response +:+ not_configured ext)
  else
    let target_file := sanitize filename in
    let target_file_path := OsPath.join submission_dir [target_file] in
    file ← lift (Cgi.get_file form_file);
    transfer file target_file_path;;
    mret (html_response +:+ "Stored: " +:+ target_file_path +:+ "<br>").

Fixpoint store_fields (self : fileUpload) (submission_dir : string)
    (form_fields : list Cgi.part) (fields : list string)
    (html_response : string) : M string :=
  match fields with
  | [] => mret html_response
  | field :: fields' =>
      html_response ←
        store_field self submission_dir form_fields field html_response;
      store_fields self submission_dir form_fields fields' html_response
  end.

(** [self.submission()], [form_fields] being the form [CustomFieldStorage]
    made of the body of the request.  The wrappers of the temporary files
    of the form are collected after the handler has returned: their
    [__del__] is in [Tempfile]. *)
Definition submission (self : fileUpload) (req : Http.request)
    (now : Clock.datetime) (form_fields : list Cgi.part) : M Http.response :=
  submission_dir ← MakeDataDirForForm self now form_fields;
  html_response ←
    store_fields self submission_dir form_fields (Cgi.keys form_fields) "";
  host ← lift (Http.header req "Host");
  let location := "http://" +:+ host in
  mret {| Http.status := 201;
          Http.response_headers := [("Location", location)];
          Http.body := html_response |}.

End Server.

(** ** Notions used to state the properties *)
Module Model.
Import Py PyIO.

(** A form whose parts all carry a file name, under names that differ. *)
Definition well_formed (form_fields : list Cgi.part) : Prop :=
  NoDup (List.map Cgi.name form_fields) /\
  Forall (fun item => is_Some (Cgi.filename item)) form_fields.

(** The file names of the parts, in the order of arrival. *)
Definition filenames (form_fields : list Cgi.part) : list string :=
  omap Cgi.filename form_fields.

(** A file name that decides the directory: it ends in [.xml] and the
    pattern finds a date in it. *)
Definition timestamped (file_name : string) : bool :=
  PyStr.endswith ".xml" file_name &&
  match Re.date_search file_name with Some _ => true | None => false end.

(** Form name and date as the first such name gives them. *)
Definition name_and_date (file_names : list string) : string * option string :=
  match List.find timestamped file_names with
  | Some file_name =>
      match Re.date_search file_name with
      | Some (group1, group2) => (PyStr.lower group1, Some group2)
      | None => ("unnamed", None)
      end
  | None => ("unnamed", None)
  end.

(** The directory these names lead to when the clock shows [now]. *)
Definition form_dir (self : Server.fileUpload) (now : Clock.datetime)
    (file_names : list string) : string :=
  let '(form_name, form_date) := name_and_date file_names in
  OsPath.join (Server.data_dir self)
    [form_name;
     if Server.falsy form_date then Clock.strftime now
     else default "" form_date].

(** The text the second group of the pattern stands for. *)
Definition is_date (d : string) : Prop :=
  Re.match_items Re.date_items d = Some d.

(** The extension [submission] compares with the allowed ones. *)
Definition extension (filename : string) : string :=
  PyStr.replace (snd (OsPath.splitext filename)) "." "".

Definition allowed (self : Server.fileUpload) (filename : string) : bool :=
  PyStr.mem (extension filename) (Server.allowed_file_types self).

Definition target_path (submission_dir filename : string) : string :=
  OsPath.join submission_dir [Server.sanitize filename].

(** What one part adds to the body of the response. *)
Definition outcome (self : Server.fileUpload) (submission_dir : string)
    (filename : string) : string :=
  if allowed self filename
  then "Stored: " +:+ target_path submission_dir filename +:+ "<br>"
  else Server.not_configured (extension filename).

(** What one part does to the file system. *)
Definition place (self : Server.fileUpload) (submission_dir : string)
    (fs : Fs.filesystem) (item : Cgi.part) : Fs.filesystem :=
  match Cgi.filename item with
  | Some filename =>
      if allowed self filename then
        match Cgi.file item with
        | Cgi.StringIO data =>
            Fs.write (target_path submission_dir filename) data fs
        | Cgi.TempFile name data =>
            Fs.move name data (target_path submission_dir filename) fs
        end
      else fs
  | None => fs
  end.

(** [MakeDirIfAbsent] as a change of the file system. *)
Definition with_dir (dir_name : string) (fs : Fs.filesystem) : Fs.filesystem :=
  if Fs.isdir dir_name fs then fs else Fs.makedirs dir_name fs.

(** No [../] and no [..\] in a name. *)
Definition clean (filename : string) : bool :=
  negb (PyStr.contains "../" filename) && negb (PyStr.contains "..\" filename).



Definition no_char (c : ascii) (s : string) : bool :=
  negb (PyStr.contains (String c "") s).

(** The directory [formList] lists: the directory part of its pattern, and
    the current directory when that part is empty. *)
Definition listed_dir (self : Server.fileUpload) : string :=
  let dirname :=
    fst (OsPath.split (OsPath.join (Server.forms_dir self) ["*.xml"])) in
  if String.eqb dirname "" then "." else dirname.

(** The forms directory as [os.path.split] leaves it: without the slashes
    at its end, unless it consists of slashes only. *)
Definition trimmed (dirname : string) : string :=
  if OsPath.all_slashes dirname then dirname
  else OsPath.strip_slashes dirname.

(** The files a run has written. *)
Definition stored (r : Fs.filesystem * result Http.response) : list string :=
  elements (dom (Fs.files (fst r))).

Definition location (r : Fs.filesystem * result Http.response) : option string :=
  match snd r with
  | Ok resp =>
      match Http.response_headers resp with
      | (_, v) :: _ => Some v
      | [] => None
      end
  | Raise _ => None
  end.

End Model.

(** ** The requests of the scenarios *)
Module Scenario.

Definition server : Server.fileUpload := Server.init "data" "forms" "xml,jpg,png".

Definition request : Http.request :=
  {| Http.scheme := "http";
     Http.headers := [("Host", "odk.example.org:8080")] |}.

Definition secure_request : Http.request :=
  {| Http.scheme := "https";
     Http.headers := [("Host", "odk.example.org")] |}.

Definition noon : Clock.datetime :=
  {| Clock.year := 2010; Clock.month := 3; Clock.day := 4;
     Clock.hour := 12; Clock.minute := 0; Clock.second := 0 |}.


Definition upload (field filename data : string) : Cgi.part :=
  {| Cgi.name := field; Cgi.filename := Some filename;
     Cgi.file := Cgi.StringIO data |}.

Definition basic : list Cgi.part :=
  [ upload "xml_submission_file" "Basic_2010-03-03_01-49-09.xml" "<data/>";
    {| Cgi.name := "photo1.jpg"; Cgi.filename := Some "photo1.jpg";
       Cgi.file := Cgi.TempFile "/tmp/tmpq3Zx1k" "JFIF" |} ].

Definition report : list Cgi.part := [ upload "file1" "report.pdf" "%PDF" ].

Definition photo : list Cgi.part := [ upload "file1" "photo1.jpg" "JFIF" ].

Definition dotted : list Cgi.part := [ upload "file1" "....//x.xml" "<x/>" ].

Definition absolute : list Cgi.part := [ upload "file1" "/etc/cron.d/x.xml" "<x/>" ].

(** A server that keeps pictures only, and a form whose XML part names an
    absolute path. *)
Definition pictures_only : Server.fileUpload := Server.init "data" "forms" "jpg,png".

Definition rooted : list Cgi.part :=
  [ upload "xml_submission_file" "/tmp/x_2010-03-03_01-49-09.xml" "<data/>" ].

(** A form with a plain field, which has no file name. *)
Definition with_note : list Cgi.part :=
  [ {| Cgi.name := "note"; Cgi.filename := None; Cgi.file := Cgi.StringIO "hello" |} ].

End Scenario.

(** ** The shape of a text, as the pattern sees it *)
Module Shape.





End Shape.

(** ** The bytes of a part *)
Module Placement.

(** The bytes [cgi] has received for a part, in memory or in its temporary
    file. *)
Definition data (file : Cgi.storage) : string :=
  match file with
  | Cgi.StringIO data => data
  | Cgi.TempFile _ data => data
  end.

End Placement.

(** ** More requests, for the further properties *)
Module Cases.

(** A plain form field. *)
Definition note : Cgi.part :=
  {| Cgi.name := "note"; Cgi.filename := None;
     Cgi.file := Cgi.StringIO "hello" |}.

Definition xml : Cgi.part :=
  Scenario.upload "xml_submission_file" "Basic_2010-03-03_01-49-09.xml" "<data/>".

Definition photo : Cgi.part := Scenario.upload "photo" "photo1.jpg" "JFIF".

(** A second part under the name of the first. *)
Definition photo_again : Cgi.part :=
  Scenario.upload "photo" "photo2.jpg" "JFIF2".


(** A request without [Host] header. *)
Definition no_host : Http.request :=
  {| Http.scheme := "http"; Http.headers := [("Accept", "*/*")] |}.

(** A file system with the data directory and one file stored earlier. *)
Definition earlier : Fs.filesystem :=
  {| Fs.dirs := {["data"]};
     Fs.files := {["data/unnamed/2010-03-01_08-00-00/old.xml" := "<old/>"]} |}.

(** A forms directory with four entries. *)
Definition four_forms : Glob.directories :=
  {| Glob.listdir := fun dirname =>
       if String.eqb dirname "forms"
       then [".hidden.xml"; "Basic.xml"; "notes.txt"; "Birds_v2.xml"]
       else [];
     Glob.expand := fun _ => [] |}.

(** A forms directory without XML file. *)
Definition no_forms : Glob.directories :=
  {| Glob.listdir := fun dirname =>
       if String.eqb dirname "forms" then ["notes.txt"] else [];
     Glob.expand := fun _ => [] |}.

End Cases.

(** ** [TemporaryFileWrapper] and [CustomFieldStorage.make_file] *)
Module Tempfile.
Import Py PyIO.

(** [os.path.isfile(path)] *)
Definition isfile (path : string) (fs : Fs.filesystem) : bool :=
  bool_decide (is_Some (Fs.files fs !! path)).

(** [os.unlink(path)] of a file that exists *)
Definition unlink (path : string) (fs : Fs.filesystem) : Fs.filesystem :=
  {| Fs.dirs := Fs.dirs fs; Fs.files := delete path (Fs.files fs) |}.

(** The wrapper: the path of its file and the flag [close_called].  Closing
    the handle [self.file] does nothing to the file system. *)
Record TemporaryFileWrapper := {
  name : string;
  close_called : bool
}.

(** [TemporaryFileWrapper.close(self)] *)
Definition close (self : TemporaryFileWrapper) : TemporaryFileWrapper :=
  if negb (close_called self)
  then {| name := name self; close_called := true |}
  else self.

(** [TemporaryFileWrapper.__del__(self)] *)
Definition del (self : TemporaryFileWrapper) : M TemporaryFileWrapper :=
  let self := close self in
  fs ← get_fs;
  if isfile (name self) fs
  then modify_fs (unlink (name self));; mret self
  else mret self.

(** [CustomFieldStorage.make_file(self)]: [tempfile.mkstemp()] makes an
    empty file under a name [fresh] that no file has, and the wrapper is
    built around it. *)
Definition make_file (fresh : string) : M TemporaryFileWrapper :=
  modify_fs (Fs.write fresh "");;
  mret {| name := fresh; close_called := false |}.

End Tempfile.

(** ** The test page *)
Module Pages.

(** [sep.join(l)] *)
Fixpoint join (sep : string) (l : list string) : string :=
  match l with
  | [] => EmptyString
  | [x] => x
  | x :: l' => x +:+ sep +:+ join sep l'
  end.

(** A text in double quotes. *)
Definition quoted (s : string) : string :=
  String dquote (s +:+ String dquote EmptyString).

(** The text of [index] before and after the place of the allowed
    extensions, line by line. *)
Definition index_head : string :=
  join (String nl EmptyString)
    [ "";
      "<html>";
      "<body>";
      "  <h3>ODK python server - Test form</h3>";
      "  <p>This is a test form for the ODK python server.";
      "     Uploaded files will be written to disk in the ./data/unnamed/";
      "     directory</p>";
      "  <p>Per the parameters used to start the server, only files with";
      "     the following extensions will be written to disk after upload:<br>";
      "     <b>" ].

Definition index_tail : string :=
  join (String nl EmptyString)
    [ "</b></p>";
      "  <form action=" +:+ quoted "submission" +:+ " method=" +:+ quoted "post"
        +:+ " enctype=" +:+ quoted "multipart/form-data" +:+ ">";
      "      File 1: <input type=" +:+ quoted "file" +:+ " name="
        +:+ quoted "file1" +:+ "/> <br/>";
      "      File 2: <input type=" +:+ quoted "file" +:+ " name="
        +:+ quoted "file2" +:+ "/> <br/>";
      "      <input type=" +:+ quoted "submit" +:+ "/>";
      "  </form>";
      "</body>";
      "</html>";
      "        " ].

(** [self.index()] *)
Definition index (self : Server.fileUpload) : string :=
  index_head +:+ join ", " (Server.allowed_file_types self) +:+ index_tail.

End Pages.

(** * Properties *)

Import Py PyIO.

(** ** The library functions on some inputs *)

Example str_methods :
  PyStr.replace "aaaa" "aa" "b" = "bb" /\
  PyStr.replace "a../b..\c" "../" "" = "ab..\c" /\
  PyStr.replace ".tar.gz" "." "" = "targz" /\
  PyStr.split "," "xml,jpg,png" = ["xml"; "jpg"; "png"] /\
  PyStr.split "," "" = [""] /\
  PyStr.split "," "a,,b," = ["a"; ""; "b"; ""] /\
  PyStr.lower "Basic_Form9" = "basic_form9" /\
  PyStr.rfind "." "a.b.c" = 3%Z /\
  PyStr.rfind "/" "a.b.c" = (-1)%Z /\
  PyStr.endswith ".xml" "a.xml" = true /\
  PyStr.endswith ".xml" "a.xml.bak" = false.
Proof. repeat split; reflexivity. Qed.

Example os_path_functions :
  OsPath.join "./data/" ["basic_"; "2010-03-03_01-49-09"]
  = "./data/basic_/2010-03-03_01-49-09" /\
  OsPath.join "data" ["/tmp/x_"; "2010-03-03_01-49-09"]
  = "/tmp/x_/2010-03-03_01-49-09" /\
  OsPath.join "data" [""; "2010-03-03_01-49-09"] = "data/2010-03-03_01-49-09" /\
  OsPath.basename "./forms/Basic.xml" = "Basic.xml" /\
  OsPath.splitext "photo1.jpg" = ("photo1", ".jpg") /\
  OsPath.splitext "a.b/c" = ("a.b/c", "") /\
  OsPath.splitext "archive.tar.gz" = ("archive.tar", ".gz") /\
  OsPath.splitext "README" = ("README", "").
Proof. repeat split; reflexivity. Qed.

Example os_path_split :
  OsPath.split "./forms/*.xml" = ("./forms", "*.xml") /\
  OsPath.split "forms//*.xml" = ("forms", "*.xml") /\
  OsPath.split "/*.xml" = ("/", "*.xml") /\
  OsPath.split "//*.xml" = ("//", "*.xml") /\
  OsPath.split "*.xml" = ("", "*.xml") /\
  OsPath.split "a/b/" = ("a/b", "").
Proof. repeat split; reflexivity. Qed.

Example glob_pattern_characters :
  Glob.has_magic "./forms/" = false /\
  Glob.has_magic "./forms/*.xml" = true /\
  Glob.has_magic "forms[1]" = true /\
  Glob.has_magic "form?" = true /\
  Glob.star_xml "Basic.xml" = true /\
  Glob.star_xml ".hidden.xml" = false /\
  Glob.star_xml "Basic.xml.bak" = false /\
  Glob.star_xml ".xml" = false.
Proof. repeat split; reflexivity. Qed.

Example date_pattern_search :
  Re.date_search "Basic_2010-03-03_01-49-09.xml"
  = Some ("Basic_", "2010-03-03_01-49-09") /\
  Re.date_search "2010-03-03_01-49-09.xml" = Some ("", "2010-03-03_01-49-09") /\
  Re.date_search "a_2010-03-03_01-49-09_b_2011-04-04_02-50-10.xml"
  = Some ("a_2010-03-03_01-49-09_b_", "2011-04-04_02-50-10") /\
  Re.date_search "Basic_2010-01-01_00_00_00.xml" = None /\
  Re.date_search "../../etc/passwd.xml" = None.
Proof. repeat split; reflexivity. Qed.

(** ** Strings *)
Section StringFacts.

Implicit Types (s t u old : string) (c : ascii).

Lemma str_app_nil_l s : "" +:+ s = s.
Proof. reflexivity. Qed.

Lemma str_app_cons c s t : String c s +:+ t = String c (s +:+ t).
Proof. reflexivity. Qed.

Lemma str_app_nil_r s : s +:+ "" = s.
Proof. induction s as [|c s IH]; [done|]. by rewrite str_app_cons, IH. Qed.

Lemma str_app_assoc s t u : (s +:+ t) +:+ u = s +:+ (t +:+ u).
Proof. induction s as [|c s IH]; [done|]. by rewrite !str_app_cons, IH. Qed.

Lemma len_app s t : PyStr.len (s +:+ t) = PyStr.len s + PyStr.len t.
Proof. induction s as [|c s IH]; [done|]. rewrite str_app_cons. simpl. by rewrite IH. Qed.

Lemma startswith_app old s : PyStr.startswith old (old +:+ s) = true.
Proof.
  induction old as [|c old IH]; [done|].
  rewrite str_app_cons. simpl. by rewrite Ascii.eqb_refl, IH.
Qed.

Lemma startswith_spec old s :
  PyStr.startswith old s = true <-> exists t, s = old +:+ t.
Proof.
  split.
  - revert s. induction old as [|c old IH]; intros s H.
    + by exists s.
    + destruct s as [|b s]; [done|]. simpl in H.
      apply andb_true_iff in H as [Hc H]. apply Ascii.eqb_eq in Hc as ->.
      destruct (IH _ H) as [t ->]. by exists t.
  - intros [t ->]. apply startswith_app.
Qed.

Lemma endswith_spec old s :
  PyStr.endswith old s = true <-> exists t, s = t +:+ old.
Proof.
  split.
  - induction s as [|c s IH]; cbn [PyStr.endswith]; intros H.
    + rewrite orb_false_r in H. apply String.eqb_eq in H as <-. by exists "".
    + apply orb_true_iff in H as [H|H].
      * apply String.eqb_eq in H as <-. by exists "".
      * destruct (IH H) as [t ->]. by exists (String c t).
  - intros [t ->]. induction t as [|c t IH].
    + rewrite str_app_nil_l.
      destruct old; cbn [PyStr.endswith]; by rewrite String.eqb_refl.
    + rewrite str_app_cons. cbn [PyStr.endswith]. rewrite IH. apply orb_true_r.
Qed.

Lemma drop_app s t : PyStr.drop (PyStr.len s) (s +:+ t) = t.
Proof. induction s as [|c s IH]; [by destruct t|]. by rewrite str_app_cons. Qed.

Lemma take_app s t : PyStr.take (PyStr.len s) (s +:+ t) = s.
Proof.
  induction s as [|c s IH]; [by destruct t|].
  rewrite str_app_cons. simpl. by rewrite IH.
Qed.

Lemma contains_app_r old s t : PyStr.contains old (s +:+ old +:+ t) = true.
Proof.
  induction s as [|c s IH].
  - rewrite str_app_nil_l. destruct (old +:+ t) eqn:E; simpl; rewrite <- E;
      by rewrite startswith_app.
  - rewrite str_app_cons. simpl. rewrite IH. apply orb_true_r.
Qed.

Lemma contains_startswith old s :
  PyStr.contains old s = false -> PyStr.startswith old s = false.
Proof. destruct s; simpl; intros H; by apply orb_false_iff in H as [-> _]. Qed.

Lemma contains_tail old c s :
  PyStr.contains old (String c s) = false -> PyStr.contains old s = false.
Proof. simpl. intros H. by apply orb_false_iff in H as [_ ->]. Qed.

(** The highest index of [c] in [s +:+ String c t] when [t] has none. *)
Lemma rfind_last c s t :
  PyStr.rfind c t = (-1)%Z ->
  PyStr.rfind c (s +:+ String c t) = Z.of_nat (PyStr.len s).
Proof.
  intros Ht. induction s as [|b s IH].
  - rewrite str_app_nil_l. simpl. rewrite Ht. simpl. by rewrite Ascii.eqb_refl.
  - rewrite str_app_cons. cbn [PyStr.rfind]. rewrite IH.
    destruct (Z.leb_spec 0 (Z.of_nat (PyStr.len s))); [|lia].
    cbn [PyStr.len String.length]. unfold PyStr.len. lia.
Qed.

Lemma rfind_absent c s :
  Model.no_char c s = true -> PyStr.rfind c s = (-1)%Z.
Proof.
  unfold Model.no_char. intros H. apply negb_true_iff in H.
  induction s as [|b s IH]; [done|].
  cbn [PyStr.rfind]. rewrite (IH (contains_tail _ _ _ H)). simpl.
  apply contains_startswith in H. simpl in H.
  rewrite andb_true_r in H. by rewrite Ascii.eqb_sym, H.
Qed.

End StringFacts.

(** ** Removing a substring with [replace] *)
Section Removal.

Variable old : string.
Hypothesis old_not_empty : old <> "".

Lemma removal_len_le skip s :
  PyStr.len (PyStr.replace_from old "" skip s) <= PyStr.len s.
Proof.
  revert skip. induction s as [|c s IH]; intros skip; [done|].
  cbn [PyStr.replace_from]. destruct skip as [|k].
  - destruct (PyStr.startswith old (String c s)).
    + rewrite str_app_nil_l. specialize (IH (PyStr.len old - 1)). simpl. lia.
    + specialize (IH 0). simpl in *. lia.
  - specialize (IH k). simpl. lia.
Qed.

Lemma removal_absent s :
  PyStr.contains old s = false -> PyStr.replace s old "" = s.
Proof.
  unfold PyStr.replace. induction s as [|c s IH]; intros H; [done|].
  cbn [PyStr.replace_from]. rewrite (contains_startswith _ _ H).
  by rewrite (IH (contains_tail _ _ _ H)).
Qed.

Lemma removal_shrinks s :
  PyStr.contains old s = true ->
  PyStr.len (PyStr.replace s old "") < PyStr.len s.
Proof.
  unfold PyStr.replace. induction s as [|c s IH]; intros H.
  - destruct old; [done|discriminate].
  - cbn [PyStr.replace_from].
    destruct (PyStr.startswith old (String c s)) eqn:E.
    + rewrite str_app_nil_l.
      pose proof (removal_len_le (PyStr.len old - 1) s). simpl. lia.
    + cbn [PyStr.contains] in H. rewrite E in H. simpl in H.
      specialize (IH H). simpl in *. lia.
Qed.

(** [replace] leaves a string as it is exactly when [old] is not in it. *)
Lemma removal_fixed_iff s :
  PyStr.replace s old "" = s <-> PyStr.contains old s = false.
Proof.
  split; [|apply removal_absent].
  intros H. destruct (PyStr.contains old s) eqn:E; [|done].
  apply removal_shrinks in E. rewrite H in E. lia.
Qed.

End Removal.

(** ** The sanitizing of file names *)
Section Sanitize.

Lemma sanitize_len_le x : PyStr.len (Server.sanitize x) <= PyStr.len x.
Proof.
  unfold Server.sanitize, PyStr.replace.
  etrans; [apply removal_len_le|apply removal_len_le].
Qed.

(** The names [sanitize] does not change are the clean ones. *)
Lemma sanitize_fixed_iff x :
  Server.sanitize x = x <-> Model.clean x = true.
Proof.
  unfold Model.clean. rewrite andb_true_iff, !negb_true_iff.
  split.
  - intros H.
    assert (PyStr.contains "../" x = false) as Hup.
    { destruct (PyStr.contains "../" x) eqn:E; [|done].
      apply removal_shrinks in E; [|done].
      pose proof (removal_len_le "..\" 0 (PyStr.replace x "../" "")) as Hle.
      unfold Server.sanitize, PyStr.replace in *. rewrite H in Hle. lia. }
    split; [done|].
    unfold Server.sanitize in H. rewrite (removal_absent _ _ Hup) in H.
    by apply removal_fixed_iff in H.
  - intros [H1 H2]. unfold Server.sanitize.
    rewrite (removal_absent _ _ H1). by apply removal_absent.
Qed.

(** Sanitizing twice changes nothing more exactly where the first pass
    left a clean name. *)
Lemma sanitize_idempotent_iff x :
  Server.sanitize (Server.sanitize x) = Server.sanitize x <->
  Model.clean (Server.sanitize x) = true.
Proof. apply sanitize_fixed_iff. Qed.


End Sanitize.

(** ** Looking parts up in a form *)
Section Forms.

Implicit Types (form_fields sub : list Cgi.part) (item : Cgi.part).

Lemma mem_false x (l : list string) : x ∉ l -> PyStr.mem x l = false.
Proof.
  unfold PyStr.mem. induction l as [|y l IH]; intros H; [done|].
  apply not_elem_of_cons in H as [Hxy Hl]. simpl.
  apply String.eqb_neq in Hxy as ->. by apply IH.
Qed.

Lemma keys_from (acc : list string) form_fields :
  NoDup (acc ++ List.map Cgi.name form_fields)%list ->
  fold_left
    (fun keys item =>
       if PyStr.mem (Cgi.name item) keys then keys
       else (keys ++ [Cgi.name item])%list)
    form_fields acc
  = (acc ++ List.map Cgi.name form_fields)%list.
Proof.
  revert acc. induction form_fields as [|item l IH]; intros acc H; simpl.
  - by rewrite app_nil_r.
  - assert (Cgi.name item ∉ acc) as Hnot.
    { apply NoDup_app in H as (_ & H & _). intros Hin.
      apply (H _ Hin). simpl. left. }
    rewrite (mem_false _ _ Hnot).
    rewrite IH; by rewrite <- app_assoc.
Qed.

(** With names that differ, the fields are visited in the order of
    arrival of the parts. *)
Lemma keys_well_formed form_fields :
  Model.well_formed form_fields ->
  Cgi.keys form_fields = List.map Cgi.name form_fields.
Proof. intros [H _]. unfold Cgi.keys. by rewrite keys_from. Qed.

Lemma filter_name_absent key form_fields :
  key ∉ List.map Cgi.name form_fields ->
  List.filter (fun item => String.eqb (Cgi.name item) key) form_fields = [].
Proof.
  induction form_fields as [|item l IH]; intros H; [done|]. simpl in *.
  apply not_elem_of_cons in H as [Hne H].
  assert (String.eqb (Cgi.name item) key = false) as ->
    by (by apply String.eqb_neq).
  by apply IH.
Qed.

Lemma filter_name_one form_fields item :
  NoDup (List.map Cgi.name form_fields) -> item ∈ form_fields ->
  List.filter (fun i => String.eqb (Cgi.name i) (Cgi.name item)) form_fields
  = [item].
Proof.
  induction form_fields as [|i l IH]; intros Hnd Hin; [by inversion Hin|].
  simpl in *. apply NoDup_cons in Hnd as [Hi Hnd].
  apply elem_of_cons in Hin as [->|Hin].
  - rewrite String.eqb_refl. by rewrite filter_name_absent.
  - assert (String.eqb (Cgi.name i) (Cgi.name item) = false) as ->.
    { apply String.eqb_neq. intros E. apply Hi. rewrite E.
      apply list_elem_of_In, in_map, list_elem_of_In, Hin. }
    by apply IH.
Qed.

Lemma getitem_well_formed form_fields item :
  Model.well_formed form_fields -> item ∈ form_fields ->
  Cgi.getitem form_fields (Cgi.name item) = Ok (Cgi.One item).
Proof.
  intros [Hnd _] Hin. unfold Cgi.getitem. by rewrite filter_name_one.
Qed.

Lemma filename_well_formed form_fields item :
  Model.well_formed form_fields -> item ∈ form_fields ->
  exists filename, Cgi.filename item = Some filename.
Proof.
  intros [_ H] Hin. rewrite Forall_forall in H.
  by destruct (H _ Hin) as [f Hf]; exists f.
Qed.


End Forms.

(** ** The handlers on well-formed forms *)
Section Handlers.

Variable self : Server.fileUpload.
Variable form_fields : list Cgi.part.
Hypothesis form_ok : Model.well_formed form_fields.

Implicit Types (sub : list Cgi.part) (fs : Fs.filesystem).

Lemma filenames_cons item sub filename :
  Cgi.filename item = Some filename ->
  Model.filenames (item :: sub) = filename :: Model.filenames sub.
Proof. intros H. unfold Model.filenames. simpl. by rewrite H. Qed.

Lemma scan_fields_spec sub :
  (forall item, item ∈ sub -> item ∈ form_fields) ->
  Server.scan_fields form_fields (List.map Cgi.name sub) "unnamed" None
  = Ok (Model.name_and_date (Model.filenames sub)).
Proof.
  induction sub as [|item sub IH]; intros Hsub; [done|].
  assert (item ∈ form_fields) as Hin by (apply Hsub; left).
  destruct (filename_well_formed _ _ form_ok Hin) as [f Hf].
  cbn [List.map Server.scan_fields].
  rewrite (getitem_well_formed _ _ form_ok Hin).
  rewrite (filenames_cons _ _ _ Hf).
  unfold Model.name_and_date. cbn [List.find]. unfold Model.timestamped at 1.
  simpl. rewrite Hf. simpl.
  rewrite IH by (intros i Hi; apply Hsub; by right).
  destruct (PyStr.endswith ".xml" f); [|reflexivity].
  destruct (Re.date_search f) as [[g1 g2]|] eqn:E; simpl; [|reflexivity].
  by rewrite E.
Qed.

Lemma MakeDataDirForForm_spec now fs :
  Server.MakeDataDirForForm self now form_fields fs
  = (Model.with_dir (Model.form_dir self now (Model.filenames form_fields)) fs,
     Ok (Model.form_dir self now (Model.filenames form_fields))).
Proof.
  unfold Server.MakeDataDirForForm.
  rewrite (keys_well_formed _ form_ok), scan_fields_spec by done.
  unfold Model.form_dir, Model.with_dir.
  destruct (Model.name_and_date _) as [form_name form_date].
  unfold Server.MakeDirIfAbsent, mbind, M_bind, lift, get_fs, modify_fs.
  simpl. by destruct (Fs.isdir _ fs).
Qed.

Lemma store_field_spec submission_dir item filename html fs :
  item ∈ form_fields -> Cgi.filename item = Some filename ->
  Server.store_field self submission_dir form_fields (Cgi.name item) html fs
  = (Model.place self submission_dir fs item,
     Ok (html +:+ Model.outcome self submission_dir filename)).
Proof.
  intros Hin Hf. unfold Server.store_field.
  rewrite (getitem_well_formed _ _ form_ok Hin).
  unfold Model.place, Model.outcome, Model.allowed, Model.extension,
    Model.target_path.
  unfold mbind, M_bind, lift. simpl. rewrite Hf. simpl.
  destruct (PyStr.mem _ (Server.allowed_file_types self)); simpl; [|done].
  rewrite <- !str_app_assoc.
  by destruct (Cgi.file item).
Qed.

Lemma store_fields_spec submission_dir sub html fs :
  (forall item, item ∈ sub -> item ∈ form_fields) ->
  Server.store_fields self submission_dir form_fields
    (List.map Cgi.name sub) html fs
  = (fold_left (Model.place self submission_dir) sub fs,
     Ok (html +:+ PyStr.concat
                    (List.map (Model.outcome self submission_dir)
                              (Model.filenames sub)))).
Proof.
  revert html fs. induction sub as [|item sub IH]; intros html fs Hsub.
  - simpl. by rewrite str_app_nil_r.
  - assert (item ∈ form_fields) as Hin by (apply Hsub; left).
    destruct (filename_well_formed _ _ form_ok Hin) as [f Hf].
    cbn [List.map Server.store_fields]. unfold mbind at 1, M_bind at 1.
    rewrite (store_field_spec _ _ _ _ _ Hin Hf).
    rewrite IH by (intros i Hi; apply Hsub; by right).
    rewrite (filenames_cons _ _ _ Hf). simpl.
    by rewrite str_app_assoc.
Qed.

(** The whole of [submission] on a well-formed form. *)
Lemma submission_spec req now host fs :
  Http.header req "Host" = Ok host ->
  let submission_dir :=
    Model.form_dir self now (Model.filenames form_fields) in
  Server.submission self req now form_fields fs
  = (fold_left (Model.place self submission_dir) form_fields
       (Model.with_dir submission_dir fs),
     Ok {| Http.status := 201;
           Http.response_headers := [("Location", "http://" +:+ host)];
           Http.body :=
             PyStr.concat
               (List.map (Model.outcome self submission_dir)
                         (Model.filenames form_fields)) |}).
Proof.
  intros Hhost dir. unfold Server.submission.
  unfold mbind at 1, M_bind at 1. rewrite MakeDataDirForForm_spec.
  unfold mbind at 1, M_bind at 1.
  rewrite (keys_well_formed _ form_ok), store_fields_spec by done.
  unfold mbind, M_bind, lift. by rewrite Hhost.
Qed.

End Handlers.

(** ** What the pattern finds *)
Section Pattern.

Implicit Types (s m rest : string) (items : list Re.item).

Lemma no_char_cons c b s :
  Model.no_char c (String b s) = negb (Ascii.eqb c b) && Model.no_char c s.
Proof.
  unfold Model.no_char. cbn [PyStr.contains PyStr.startswith].
  rewrite andb_true_r. by rewrite negb_orb.
Qed.

Lemma match_items_sound items s m :
  Re.match_items items s = Some m ->
  (exists rest, s = m +:+ rest) /\ Re.match_items items m = Some m /\
  PyStr.len m = List.length items.
Proof.
  revert s m. induction items as [|i items IH]; intros s m H.
  - simpl in H. injection H as <-. split; [by exists s|]. by destruct s.
  - destruct s as [|c s]; [done|]. simpl in H.
    destruct (Re.item_matches i c) eqn:Hi; [|done].
    destruct (Re.match_items items s) as [m'|] eqn:Hm; [|done].
    injection H as <-. destruct (IH _ _ Hm) as ([rest ->] & Hm' & Hlen).
    split; [by exists rest|]. simpl. rewrite Hi, Hm'. by rewrite Hlen.
Qed.

Lemma match_items_app items m rest :
  Re.match_items items m = Some m ->
  Re.match_items items (m +:+ rest) = Some m.
Proof.
  revert m. induction items as [|i items IH]; intros m H.
  - destruct m; [|done]. by destruct rest.
  - destruct m as [|c m]; [done|]. rewrite str_app_cons. simpl in *.
    destruct (Re.item_matches i c); [|done].
    destruct (Re.match_items items m) as [m'|] eqn:Hm; [|done].
    injection H as ->. by rewrite (IH _ Hm).
Qed.

(** A match splits the name into a first group without newline, a date
    of nineteen characters, and what follows. *)
Lemma date_search_sound s g1 g2 :
  Re.date_search s = Some (g1, g2) ->
  (exists rest, s = g1 +:+ g2 +:+ rest) /\ Model.is_date g2 /\
  PyStr.len g2 = 19 /\ Model.no_char nl g1 = true.
Proof.
  assert (forall s g1 g2,
    match Re.match_items Re.date_items s with
    | Some d => Some ("", d)
    | None => None
    end = Some (g1, g2) ->
    (exists rest, s = g1 +:+ g2 +:+ rest) /\ Model.is_date g2 /\
    PyStr.len g2 = 19 /\ Model.no_char nl g1 = true) as Hhere.
  { clear. intros s g1 g2 H.
    destruct (Re.match_items Re.date_items s) as [d|] eqn:Hd; [|done].
    injection H as <- <-. by apply match_items_sound in Hd as (? & ? & ?). }
  revert g1 g2. induction s as [|c s IH]; intros g1 g2 H.
  - by apply Hhere.
  - cbn [Re.date_search] in H. destruct (Ascii.eqb c nl) eqn:Hc.
    { by apply Hhere. }
    destruct (Re.date_search s) as [[h1 h2]|] eqn:Hs; [|by apply Hhere].
    injection H as <- <-.
    destruct (IH _ _ eq_refl) as ([rest ->] & Hd & Hl & Hn).
    split; [by exists rest|]. split; [done|]. split; [done|].
    rewrite no_char_cons, Hn. by rewrite Ascii.eqb_sym, Hc.
Qed.

(** Every such split is found, and the first group found is the longest:
    the star is greedy. *)
Lemma date_search_greedy g1 g2 rest :
  Model.no_char nl g1 = true -> Model.is_date g2 ->
  exists h1 h2,
    Re.date_search (g1 +:+ g2 +:+ rest) = Some (h1, h2) /\
    PyStr.len g1 <= PyStr.len h1.
Proof.
  intros Hn Hd. induction g1 as [|c g1 IH].
  - rewrite str_app_nil_l.
    pose proof (match_items_app _ _ rest Hd) as Hm.
    destruct (g2 +:+ rest) as [|c s] eqn:E.
    + discriminate Hm.
    + cbn [Re.date_search]. rewrite Hm.
      destruct (Ascii.eqb c nl).
      { eexists _, _. split; [done|simpl; lia]. }
      destruct (Re.date_search s) as [[h1 h2]|];
        eexists _, _; (split; [done|simpl; lia]).
  - rewrite no_char_cons in Hn. apply andb_true_iff in Hn as [Hc Hn].
    destruct (IH Hn) as (h1 & h2 & Hs & Hle).
    rewrite str_app_cons. cbn [Re.date_search].
    rewrite Ascii.eqb_sym. apply negb_true_iff in Hc as ->. rewrite Hs.
    exists (String c h1), h2. split; [done|].
    unfold PyStr.len in *. simpl. lia.
Qed.

End Pattern.

(** ** Paths *)
Section Paths.









End Paths.

(** ** More on substrings and on [rfind] *)
Section Names.

Lemma contains_spec old s :
  PyStr.contains old s = true -> exists a b, s = a +:+ old +:+ b.
Proof.
  induction s as [|c s IH]; cbn [PyStr.contains]; intros H.
  - rewrite orb_false_r in H. apply startswith_spec in H as [t ->].
    by exists "", t.
  - apply orb_true_iff in H as [H|H].
    + apply startswith_spec in H as [t ->]. by exists "", t.
    + destruct (IH H) as (a & b & ->). by exists (String c a), b.
Qed.

Lemma no_char_no_substring c (before after s : string) :
  Model.no_char c s = true ->
  PyStr.contains (before +:+ String c after) s = false.
Proof.
  intros H. destruct (PyStr.contains _ s) eqn:E; [|done].
  apply contains_spec in E as (a & b & ->).
  unfold Model.no_char in H. apply negb_true_iff in H.
  pose proof (contains_app_r (String c "") (a +:+ before) (after +:+ b)) as Hc.
  rewrite !str_app_assoc in Hc. rewrite !str_app_assoc in H.
  rewrite str_app_cons, str_app_nil_l in Hc. rewrite str_app_cons in H.
  congruence.
Qed.

Lemma rfind_lt c s : (PyStr.rfind c s < Z.of_nat (PyStr.len s))%Z.
Proof.
  induction s as [|b s IH]; [done|]. cbn [PyStr.rfind].
  unfold PyStr.len in *. cbn [String.length].
  destruct (Z.leb_spec 0 (PyStr.rfind c s)); [lia|].
  destruct (Ascii.eqb b c); lia.
Qed.

Lemma rfind_app_absent c s t :
  PyStr.rfind c t = (-1)%Z -> PyStr.rfind c (s +:+ t) = PyStr.rfind c s.
Proof.
  intros Ht. induction s as [|b s IH]; [by rewrite str_app_nil_l|].
  rewrite str_app_cons. cbn [PyStr.rfind]. by rewrite IH.
Qed.

End Names.

(** ** [formList] *)
Section FormList.

Variable req : Http.request.
Variable host : string.
Hypothesis host_sent : Http.header req "Host" = Ok host.



End FormList.

(** ** The directory [formList] lists *)
Section ListedDirectory.

Implicit Types (s t dirname : string).

Lemma all_slashes_app s t :
  OsPath.all_slashes (s +:+ t) = OsPath.all_slashes s && OsPath.all_slashes t.
Proof.
  induction s as [|c s IH]; [done|]. rewrite str_app_cons.
  cbn [OsPath.all_slashes]. by rewrite IH, andb_assoc.
Qed.

Lemma strip_slashes_slash s :
  OsPath.strip_slashes (s +:+ "/") = OsPath.strip_slashes s.
Proof.
  induction s as [|c s IH]; [done|].
  rewrite str_app_cons. cbn [OsPath.strip_slashes].
  rewrite <- str_app_cons, all_slashes_app, IH.
  change (OsPath.all_slashes "/") with true. by rewrite andb_true_r.
Qed.

Lemma all_slashes_ends s :
  s <> "" -> OsPath.all_slashes s = true -> PyStr.endswith "/" s = true.
Proof.
  induction s as [|c s IH]; [done|]. intros _ H.
  cbn [OsPath.all_slashes] in H. apply andb_true_iff in H as [Hc Hs].
  apply Ascii.eqb_eq in Hc as ->. cbn [PyStr.endswith].
  destruct s as [|b s]; [done|]. rewrite (IH ltac:(done) Hs). apply orb_true_r.
Qed.

Lemma split_slash_tail head tail :
  PyStr.rfind "/" tail = (-1)%Z ->
  OsPath.split ((head +:+ "/") +:+ tail) = (Model.trimmed (head +:+ "/"), tail).
Proof.
  intros H. unfold OsPath.split.
  assert (PyStr.rfind "/" ((head +:+ "/") +:+ tail)
          = Z.of_nat (PyStr.len head)) as ->.
  { rewrite str_app_assoc. by apply rfind_last. }
  replace (Z.to_nat (Z.of_nat (PyStr.len head) + 1))
    with (PyStr.len (head +:+ "/")) by (rewrite len_app; simpl; lia).
  rewrite take_app, drop_app. unfold Model.trimmed.
  assert (String.eqb (head +:+ "/") "" = false) as ->
    by (by destruct head).
  by destruct (OsPath.all_slashes (head +:+ "/")).
Qed.

(** The directory part of the pattern of [formList] is the forms directory
    without the slashes at its end. *)
Lemma dirname_of_pattern dirname :
  fst (OsPath.split (OsPath.join dirname ["*.xml"])) = Model.trimmed dirname.
Proof.
  unfold OsPath.join. cbn [fold_left]. unfold OsPath.join2.
  change (PyStr.startswith "/" "*.xml") with false. cbv iota.
  destruct (String.eqb_spec dirname "") as [->|Hne].
  { reflexivity. }
  cbn [orb]. destruct (PyStr.endswith "/" dirname) eqn:E.
  - apply endswith_spec in E as [t ->]. by rewrite split_slash_tail.
  - rewrite <- str_app_assoc, split_slash_tail by done. cbn [fst].
    unfold Model.trimmed. rewrite all_slashes_app, strip_slashes_slash.
    change (OsPath.all_slashes "/") with true. rewrite andb_true_r.
    destruct (OsPath.all_slashes dirname) eqn:A; [|done].
    by rewrite (all_slashes_ends _ Hne A) in E.
Qed.

(** The pattern of [formList] always holds a pattern character, and its
    last component is [*.xml]. *)
Lemma pattern_of_formList dirname :
  Glob.has_magic (OsPath.join dirname ["*.xml"]) = true /\
  snd (OsPath.split (OsPath.join dirname ["*.xml"])) = "*.xml".
Proof.
  assert (forall s, Glob.has_magic (s +:+ "*.xml") = true) as Hm.
  { intros s. induction s as [|c s IH]; [done|].
    rewrite str_app_cons. cbn [Glob.has_magic]. rewrite IH. apply orb_true_r. }
  unfold OsPath.join. cbn [fold_left]. unfold OsPath.join2.
  change (PyStr.startswith "/" "*.xml") with false. cbv iota.
  destruct (String.eqb_spec dirname "") as [->|Hne]; [done|].
  cbn [orb]. destruct (PyStr.endswith "/" dirname) eqn:E.
  - split; [apply Hm|].
    apply endswith_spec in E as [t ->]. by rewrite split_slash_tail.
  - split; [rewrite <- str_app_assoc; apply Hm|].
    by rewrite <- str_app_assoc, split_slash_tail.
Qed.

Lemma has_magic_strip s :
  Glob.has_magic s = false -> Glob.has_magic (OsPath.strip_slashes s) = false.
Proof.
  induction s as [|c s IH]; [done|]. cbn [Glob.has_magic OsPath.strip_slashes].
  intros H. apply orb_false_iff in H as [Hc Hs].
  destruct (OsPath.all_slashes (String c s)); [done|].
  cbn [Glob.has_magic]. by rewrite Hc, IH.
Qed.

Lemma has_magic_trimmed dirname :
  Glob.has_magic dirname = false ->
  Glob.has_magic (Model.trimmed dirname) = false.
Proof.
  intros H. unfold Model.trimmed.
  destruct (OsPath.all_slashes dirname); [done|by apply has_magic_strip].
Qed.

Lemma listed_dir_trimmed self :
  Model.listed_dir self
  = if String.eqb (Model.trimmed (Server.forms_dir self)) "" then "."
    else Model.trimmed (Server.forms_dir self).
Proof. unfold Model.listed_dir. by rewrite dirname_of_pattern. Qed.

Lemma join2_empty entry : OsPath.join2 "" entry = entry.
Proof. unfold OsPath.join2. by destruct (PyStr.startswith "/" entry). Qed.

(** What [glob] gives [formList] when the forms directory holds no pattern
    character: the matching entries of the one directory listed, each
    behind the directory part of the pattern. *)
Lemma glob_xml_plain self seen :
  Glob.has_magic (Server.forms_dir self) = false ->
  Glob.glob_xml seen (OsPath.join (Server.forms_dir self) ["*.xml"])
  = List.map (OsPath.join2 (Model.trimmed (Server.forms_dir self)))
      (List.filter Glob.star_xml (Glob.listdir seen (Model.listed_dir self))).
Proof.
  intros H. unfold Glob.glob_xml. rewrite listed_dir_trimmed, dirname_of_pattern.
  pose proof (has_magic_trimmed _ H) as Hm.
  set (d := Model.trimmed (Server.forms_dir self)) in *.
  destruct (String.eqb_spec d "") as [->|Hne].
  - unfold Glob.glob1_xml. cbn [String.eqb].
    induction (List.filter _ _) as [|e l IH]; [done|].
    cbn [List.map]. by rewrite join2_empty, <- IH.
  - rewrite Hm. cbn [flat_map]. rewrite app_nil_r.
    unfold Glob.glob1_xml. by apply String.eqb_neq in Hne as ->.
Qed.

End ListedDirectory.

(** ** The first name with a date *)
Section FirstMatch.

Lemma find_first {A} (f : A -> bool) before x after :
  Forall (fun y => f y = false) before -> f x = true ->
  List.find f (before ++ x :: after)%list = Some x.
Proof.
  intros H Hx. induction H as [|y l Hy _ IH]; simpl.
  - by rewrite Hx.
  - by rewrite Hy.
Qed.

Lemma find_none {A} (f : A -> bool) l :
  Forall (fun y => f y = false) l -> List.find f l = None.
Proof. intros H. induction H as [|y l Hy _ IH]; simpl; [done|by rewrite Hy]. Qed.

(** A name with a date gives a date that is not empty, so the clock is
    not read. *)
Lemma name_and_date_found file_names file_name :
  List.find Model.timestamped file_names = Some file_name ->
  exists group1 group2,
    Re.date_search file_name = Some (group1, group2) /\
    Model.name_and_date file_names = (PyStr.lower group1, Some group2) /\
    Server.falsy (Some group2) = false.
Proof.
  intros H. unfold Model.name_and_date. rewrite H.
  apply find_some in H as [_ H]. unfold Model.timestamped in H.
  apply andb_true_iff in H as [_ H].
  destruct (Re.date_search file_name) as [[g1 g2]|] eqn:E; [|done].
  exists g1, g2. split; [done|]. split; [done|].
  apply date_search_sound in E as (_ & _ & Hlen & _). by destruct g2.
Qed.

Lemma form_dir_found self now file_names file_name group1 group2 :
  List.find Model.timestamped file_names = Some file_name ->
  Re.date_search file_name = Some (group1, group2) ->
  Model.form_dir self now file_names
  = OsPath.join (Server.data_dir self) [PyStr.lower group1; group2].
Proof.
  intros H E. destruct (name_and_date_found _ _ H) as (g1 & g2 & E' & Hn & Hf).
  rewrite E in E'. injection E' as <- <-.
  unfold Model.form_dir. rewrite Hn. by rewrite Hf.
Qed.

Lemma form_dir_unnamed self now file_names :
  List.find Model.timestamped file_names = None ->
  Model.form_dir self now file_names
  = OsPath.join (Server.data_dir self) ["unnamed"; Clock.strftime now].
Proof.
  intros H. unfold Model.form_dir, Model.name_and_date. by rewrite H.
Qed.

Lemma with_dir_isdir dir_name fs :
  Fs.isdir dir_name (Model.with_dir dir_name fs) = true.
Proof.
  unfold Model.with_dir. destruct (Fs.isdir dir_name fs) eqn:E; [done|].
  unfold Fs.isdir, Fs.makedirs. simpl. apply bool_decide_eq_true. set_solver.
Qed.

Lemma with_dir_files dir_name fs :
  Fs.files (Model.with_dir dir_name fs) = Fs.files fs.
Proof. unfold Model.with_dir. by destruct (Fs.isdir dir_name fs). Qed.

End FirstMatch.

(** ** Parts that are not kept *)
Section Skipped.

Variable self : Server.fileUpload.

Lemma place_skipped submission_dir fs item filename :
  Cgi.filename item = Some filename -> Model.allowed self filename = false ->
  Model.place self submission_dir fs item = fs.
Proof. intros Hf Ha. unfold Model.place. by rewrite Hf, Ha. Qed.

Lemma place_all_skipped submission_dir fs form_fields :
  Forall (fun item => exists filename,
            Cgi.filename item = Some filename /\
            Model.allowed self filename = false) form_fields ->
  fold_left (Model.place self submission_dir) form_fields fs = fs.
Proof.
  intros H. induction H as [|item l (f & Hf & Ha) _ IH]; [done|].
  simpl. by rewrite (place_skipped _ _ _ _ Hf Ha).
Qed.

Lemma concat_elem {A} (g : A -> string) x (l : list A) :
  x ∈ l ->
  exists before after,
    PyStr.concat (List.map g l) = before +:+ g x +:+ after.
Proof.
  intros H. apply list_elem_of_split in H as (l1 & l2 & ->).
  exists (PyStr.concat (List.map g l1)), (PyStr.concat (List.map g l2)).
  induction l1 as [|y l1 IH]; [done|].
  simpl in *. by rewrite IH, str_app_assoc.
Qed.

(** A form of which nothing is kept leaves the directory and no file. *)
Lemma submission_nothing_kept req now host form_fields fs :
  Model.well_formed form_fields ->
  Http.header req "Host" = Ok host ->
  Forall (fun filename => Model.allowed self filename = false)
         (Model.filenames form_fields) ->
  let dir := Model.form_dir self now (Model.filenames form_fields) in
  let r := Server.submission self req now form_fields fs in
  fst r = Model.with_dir dir fs /\
  Fs.isdir dir (fst r) = true /\ Fs.files (fst r) = Fs.files fs /\
  exists resp, snd r = Ok resp /\ Http.status resp = 201.
Proof.
  intros Hok Hhost Hall dir r. subst r.
  rewrite (submission_spec _ _ Hok _ _ _ _ Hhost). cbn [fst snd].
  rewrite place_all_skipped.
  - split; [done|]. split; [apply with_dir_isdir|].
    split; [apply with_dir_files|]. by eexists.
  - apply Forall_forall. intros item Hin.
    destruct (filename_well_formed _ _ Hok Hin) as [f Hf].
    exists f. split; [done|]. rewrite Forall_forall in Hall. apply Hall.
    unfold Model.filenames. apply list_elem_of_omap. by exists item.
Qed.

End Skipped.

(** ** The clock *)
Section ClockFacts.

Lemma is_digit_digit n : Re.is_digit (Clock.digit n) = true.
Proof.
  unfold Clock.digit. pose proof (Nat.mod_upper_bound n 10) as H.
  destruct (n mod 10) as [|k]; [reflexivity|].
  do 9 (destruct k as [|k]; [reflexivity|]). lia.
Qed.

(** What [strftime] prints has the shape the pattern looks for. *)
Lemma strftime_is_date now : Model.is_date (Clock.strftime now).
Proof.
  unfold Model.is_date, Clock.strftime, Clock.pad4, Clock.pad2.
  rewrite !str_app_cons, !str_app_nil_l.
  cbn [Re.match_items Re.date_items Re.item_matches].
  by rewrite !is_digit_digit.
Qed.

End ClockFacts.

(** ** The fields the loops get through *)
Section Answered.

Variable self : Server.fileUpload.
Variable form_fields : list Cgi.part.

(** A field the loops get through has one part of that name, with a file
    name. *)
Lemma store_field_ok submission_dir field html fs fs' html' :
  Server.store_field self submission_dir form_fields field html fs
  = (fs', Ok html') ->
  exists item filename,
    Cgi.getitem form_fields field = Ok (Cgi.One item) /\
    Cgi.filename item = Some filename.
Proof.
  unfold Server.store_field, mbind, M_bind, lift.
  destruct (Cgi.getitem form_fields field) as [[item|found]|e]; try done.
  cbn [Cgi.get_filename]. destruct (Cgi.filename item) as [f|] eqn:Hf; [|done].
  intros _. by exists item, f.
Qed.

Lemma store_fields_ok submission_dir fields html fs fs' html' :
  Server.store_fields self submission_dir form_fields fields html fs
  = (fs', Ok html') ->
  Forall
    (fun field =>
       exists item filename,
         Cgi.getitem form_fields field = Ok (Cgi.One item) /\
         Cgi.filename item = Some filename)
    fields.
Proof.
  revert html fs. induction fields as [|field fields IH]; intros html fs H.
  - constructor.
  - cbn [Server.store_fields] in H. unfold mbind at 1, M_bind at 1 in H.
    destruct (Server.store_field _ _ _ field html fs) as [fs1 [html1|e]] eqn:E;
      [|done].
    constructor; [by eapply store_field_ok|by eapply IH].
Qed.

Lemma mem_true x (l : list string) : PyStr.mem x l = true -> x ∈ l.
Proof.
  unfold PyStr.mem. intros H. apply existsb_exists in H as (y & Hy & E).
  apply String.eqb_eq in E. subst y. apply list_elem_of_In, Hy.
Qed.

Lemma keys_from_covers (acc : list string) (l : list Cgi.part) x :
  x ∈ acc \/ x ∈ List.map Cgi.name l ->
  x ∈ fold_left
        (fun keys item =>
           if PyStr.mem (Cgi.name item) keys then keys
           else (keys ++ [Cgi.name item])%list)
        l acc.
Proof.
  revert acc. induction l as [|item l IH]; intros acc H; simpl.
  - destruct H as [H|H]; [done|by inversion H].
  - apply IH. simpl in H.
    destruct (PyStr.mem (Cgi.name item) acc) eqn:E.
    + destruct H as [H|H]; [by left|].
      apply elem_of_cons in H as [->|H]; [|by right].
      left. by apply mem_true.
    + destruct H as [H|H]; [left; set_solver|].
      apply elem_of_cons in H as [->|H]; [left; set_solver|by right].
Qed.

(** Every part is visited by name. *)
Lemma keys_cover item :
  item ∈ form_fields -> Cgi.name item ∈ Cgi.keys form_fields.
Proof.
  intros H. apply keys_from_covers. right.
  apply list_elem_of_In, in_map, list_elem_of_In, H.
Qed.

Lemma getitem_one field item :
  Cgi.getitem form_fields field = Ok (Cgi.One item) ->
  List.filter (fun i => String.eqb (Cgi.name i) field) form_fields = [item].
Proof.
  unfold Cgi.getitem.
  destruct (List.filter _ form_fields) as [|i [|j l]]; [done| |done].
  by intros [= ->].
Qed.

Lemma names_differ (l : list Cgi.part) :
  (forall item, item ∈ l ->
     List.length
       (List.filter (fun i => String.eqb (Cgi.name i) (Cgi.name item)) l) <= 1) ->
  NoDup (List.map Cgi.name l).
Proof.
  induction l as [|q l IH]; intros H; simpl; [constructor|].
  apply NoDup_cons. split.
  - intros Hin. apply list_elem_of_In, in_map_iff in Hin as (p & Hname & Hp).
    specialize (H q (list_elem_of_here _ _)). simpl in H.
    rewrite String.eqb_refl in H. simpl in H.
    assert (In p (List.filter (fun i => String.eqb (Cgi.name i) (Cgi.name q)) l))
      as Hf by (apply filter_In; split; [done|by apply String.eqb_eq]).
    destruct (List.filter _ l); [done|simpl in H; lia].
  - apply IH. intros item Hin.
    specialize (H item (list_elem_of_further _ _ _ Hin)). simpl in H.
    destruct (String.eqb (Cgi.name q) (Cgi.name item)); simpl in H; lia.
Qed.

Lemma passes_well_formed :
  (forall item, item ∈ form_fields ->
     exists i filename,
       Cgi.getitem form_fields (Cgi.name item) = Ok (Cgi.One i) /\
       Cgi.filename i = Some filename) ->
  Model.well_formed form_fields.
Proof.
  intros H. split.
  - apply names_differ. intros item Hin.
    destruct (H _ Hin) as (i & f & Hg & _).
    by rewrite (getitem_one _ _ Hg).
  - apply Forall_forall. intros item Hin.
    destruct (H _ Hin) as (i & f & Hg & Hf).
    apply getitem_one in Hg.
    assert (In item [i]) as Hi.
    { rewrite <- Hg. apply filter_In. split; [by apply list_elem_of_In|].
      apply String.eqb_refl. }
    destruct Hi as [->|[]]. by exists f.
Qed.

End Answered.

(** A request that is answered: the form is in order, the [Host] header is
    there, and the run is the one of [submission_spec]. *)
Lemma submission_answered self req now form_fields fs fs' resp :
  Server.submission self req now form_fields fs = (fs', Ok resp) ->
  Model.well_formed form_fields /\
  exists host,
    Http.header req "Host" = Ok host /\
    let submission_dir :=
      Model.form_dir self now (Model.filenames form_fields) in
    fs' = fold_left (Model.place self submission_dir) form_fields
            (Model.with_dir submission_dir fs) /\
    resp = {| Http.status := 201;
              Http.response_headers := [("Location", "http://" +:+ host)];
              Http.body :=
                PyStr.concat
                  (List.map (Model.outcome self submission_dir)
                            (Model.filenames form_fields)) |}.
Proof.
  intros H.
  assert (Model.well_formed form_fields /\
          exists host, Http.header req "Host" = Ok host) as (Hok & host & Hhost).
  { unfold Server.submission in H. unfold mbind at 1, M_bind at 1 in H.
    destruct (Server.MakeDataDirForForm self now form_fields fs)
      as [fs1 [dir|e]]; [|done].
    unfold mbind at 1, M_bind at 1 in H.
    destruct (Server.store_fields self dir form_fields _ "" fs1)
      as [fs2 [html|e]] eqn:Hs; [|done].
    unfold mbind, M_bind, lift in H.
    destruct (Http.header req "Host") as [host|e] eqn:Hh; [|done].
    split; [|by exists host].
    apply passes_well_formed. intros item Hin.
    apply store_fields_ok in Hs. rewrite Forall_forall in Hs.
    apply Hs. by apply keys_cover. }
  split; [done|]. exists host. split; [done|].
  rewrite (submission_spec _ _ Hok _ _ _ _ Hhost) in H.
  by injection H as <- <-.
Qed.



(** * The claims *)

Lemma basic_well_formed : Model.well_formed Scenario.basic.
Proof.
  split.
  - apply (bool_decide_unpack _). by vm_compute.
  - repeat constructor; by eexists.
Defined.


(** C1.  The scenario of the specification, run on the code: a form with the
    parts [Basic_2010-03-03_01-49-09.xml] and [photo1.jpg], the allowed types
    [xml,jpg,png] and the data directory [data].  The answer is 201 and its
    [Location] carries the host of the request, but the first group of the
    pattern keeps the underscore that ends the form name: both files are
    stored under [data/basic_/2010-03-03_01-49-09/], and nothing is stored
    under [data/basic/2010-03-03_01-49-09/]. *)
Theorem C1_basic_scenario_on_the_code :
  let r := Server.submission Scenario.server Scenario.request Scenario.noon
             Scenario.basic Fs.empty in
  snd r = Ok {| Http.status := 201;
                Http.response_headers :=
                  [("Location", "http://odk.example.org:8080")];
                Http.body :=
                  "Stored: data/basic_/2010-03-03_01-49-09/Basic_2010-03-03_01-49-09.xml<br>"
                  +:+ "Stored: data/basic_/2010-03-03_01-49-09/photo1.jpg<br>" |}
  /\ Http.header Scenario.request "Host" = Ok "odk.example.org:8080"
  /\ Fs.files (fst r)
       !! "data/basic_/2010-03-03_01-49-09/Basic_2010-03-03_01-49-09.xml"
     = Some "<data/>"
  /\ Fs.files (fst r) !! "data/basic_/2010-03-03_01-49-09/photo1.jpg"
     = Some "JFIF"
  /\ Fs.files (fst r)
       !! "data/basic/2010-03-03_01-49-09/Basic_2010-03-03_01-49-09.xml"
     = None
  /\ Fs.files (fst r) !! "data/basic/2010-03-03_01-49-09/photo1.jpg" = None
  /\ Re.date_search "Basic_2010-03-03_01-49-09.xml"
     = Some ("Basic_", "2010-03-03_01-49-09").
Proof. vm_compute. repeat split. Qed.

(** C2.  Sanitizing is not idempotent on the code: the name [....//] becomes
    [../], which a second pass empties. *)
Theorem C2_sanitize_twice_differs :
  Server.sanitize "....//" = "../" /\
  Server.sanitize (Server.sanitize "....//") = "" /\
  Server.sanitize (Server.sanitize "....//") <> Server.sanitize "....//".
Proof. vm_compute. repeat split. discriminate. Qed.

(** C3.  A sanitized name can still hold [../]: [....//x.xml] becomes
    [../x.xml], and the file is stored one level above the directory of the
    submission. *)
Theorem C3_traversal_survives_sanitize :
  Server.sanitize "....//x.xml" = "../x.xml" /\
  PyStr.contains "../" (Server.sanitize "....//x.xml") = true /\
  let r := Server.submission Scenario.server Scenario.request Scenario.noon
             Scenario.dotted Fs.empty in
  Fs.isdir "data/unnamed/2010-03-04_12-00-00" (fst r) = true /\
  Fs.files (fst r) !! "data/unnamed/2010-03-04_12-00-00/../x.xml"
  = Some "<x/>".
Proof. vm_compute. repeat split. Qed.

(** C4, as stated, fails: the note for a part that is not kept names the
    extension only.  For the form that holds [report.pdf] alone, the body of
    the answer is the one note for [pdf], and the name [report] is not in
    it. *)
Lemma C4_note_without_filename :
  let r := Server.submission Scenario.server Scenario.request Scenario.noon
             Scenario.report Fs.empty in
  Model.allowed Scenario.server "report.pdf" = false /\
  exists resp,
    snd r = Ok resp /\ Http.status resp = 201 /\
    Http.body resp = Server.not_configured "pdf" /\
    PyStr.contains "report" (Http.body resp) = false.
Proof. eexists; [by vm_compute|]. eexists. by vm_compute. Qed.

(** C4, amended.  In a form whose parts all carry a file name under names
    that differ, the turn of a part whose extension is not allowed touches
    no file: it cannot fail, it leaves the file system as it is and adds to
    the response the note [Server not configured to save "*.<ext>" files<br>],
    which names the extension only.  Whenever the request is answered, the
    status is 201 and the note is in the body. *)
Theorem C4_skipped_part_is_reported_by_extension
    self req now form_fields fs item filename :
  Model.well_formed form_fields ->
  item ∈ form_fields ->
  Cgi.filename item = Some filename ->
  Model.allowed self filename = false ->
  (forall submission_dir html fs0,
     Server.store_field self submission_dir form_fields (Cgi.name item) html fs0
     = (fs0, Ok (html +:+ Server.not_configured (Model.extension filename))))
  /\ forall fs' resp,
       Server.submission self req now form_fields fs = (fs', Ok resp) ->
       Http.status resp = 201 /\
       exists before after,
         Http.body resp
         = before +:+ Server.not_configured (Model.extension filename)
           +:+ after.
Proof.
  intros Hok Hin Hf Ha. split.
  - intros dir html fs0.
    rewrite (store_field_spec _ _ Hok _ _ _ _ _ Hin Hf).
    rewrite (place_skipped _ _ _ _ _ Hf Ha).
    unfold Model.outcome. by rewrite Ha.
  - intros fs' resp H.
    apply submission_answered in H as (_ & host & _ & _ & ->).
    split; [done|]. cbn [Http.body].
    set (dir := Model.form_dir _ _ _).
    assert (filename ∈ Model.filenames form_fields) as Hfn.
    { unfold Model.filenames. apply list_elem_of_omap. by exists item. }
    destruct (concat_elem (Model.outcome self dir) _ _ Hfn) as (b & a & E).
    exists b, a. rewrite E. unfold Model.outcome. by rewrite Ha.
Qed.

Lemma C4_skipped_part_witness :
  (forall submission_dir html fs0,
     Server.store_field Scenario.server submission_dir
       [Cases.xml; Scenario.upload "file2" "report.pdf" "%PDF"] "file2" html fs0
     = (fs0, Ok (html +:+ Server.not_configured (Model.extension "report.pdf"))))
  /\ forall fs' resp,
       Server.submission Scenario.server Scenario.request Scenario.noon
         [Cases.xml; Scenario.upload "file2" "report.pdf" "%PDF"] Fs.empty
       = (fs', Ok resp) ->
       Http.status resp = 201 /\
       exists before after,
         Http.body resp
         = before +:+ Server.not_configured (Model.extension "report.pdf")
           +:+ after.
Proof.
  apply (C4_skipped_part_is_reported_by_extension
           Scenario.server Scenario.request Scenario.noon
           [Cases.xml; Scenario.upload "file2" "report.pdf" "%PDF"]
           Fs.empty
           (Scenario.upload "file2" "report.pdf" "%PDF") "report.pdf").
  - split.
    + apply (bool_decide_unpack _). by vm_compute.
    + repeat constructor; by eexists.
  - right. left.
  - reflexivity.
  - reflexivity.
Defined.

(** The directory [MakeDataDirForForm] returns, on a form whose parts all
    carry a file name under names that differ.  The file names are gone
    through in the order of arrival.  At the first name that ends in [.xml]
    and in which the pattern finds a first group followed by a date,
    whatever comes after it in the form, the path returned is
    [os.path.join(data_dir, form, date)] with the first group in lower case
    as the form and the date as found, the name being the first group, the
    date and a rest.  When no name is such, the form is [unnamed] and the
    date is the current time as [strftime] prints it, in the shape of the
    dates of the pattern. *)
Lemma resolver_first_dated_name self now form_fields fs :
  Model.well_formed form_fields ->
  let r := Server.MakeDataDirForForm self now form_fields fs in
  (forall before file_name after group1 group2,
     Model.filenames form_fields = (before ++ file_name :: after)%list ->
     Forall (fun f => Model.timestamped f = false) before ->
     PyStr.endswith ".xml" file_name = true ->
     Re.date_search file_name = Some (group1, group2) ->
     let form_dir :=
       OsPath.join (Server.data_dir self) [PyStr.lower group1; group2] in
     snd r = Ok form_dir /\ Fs.isdir form_dir (fst r) = true /\
     (exists rest, file_name = group1 +:+ group2 +:+ rest) /\
     Model.is_date group2)
  /\
  (Forall (fun f => Model.timestamped f = false) (Model.filenames form_fields) ->
     let form_dir :=
       OsPath.join (Server.data_dir self) ["unnamed"; Clock.strftime now] in
     snd r = Ok form_dir /\ Fs.isdir form_dir (fst r) = true /\
     Model.is_date (Clock.strftime now)).
Proof.
  intros Hok r. subst r. rewrite (MakeDataDirForForm_spec _ _ Hok).
  cbn [fst snd]. split.
  - intros before file_name after g1 g2 Hnames Hbefore Hxml Hdate.
    assert (List.find Model.timestamped (Model.filenames form_fields)
            = Some file_name) as Hfind.
    { rewrite Hnames. apply find_first; [done|].
      unfold Model.timestamped. by rewrite Hxml, Hdate. }
    rewrite (form_dir_found _ _ _ _ _ _ Hfind Hdate).
    split; [done|]. split; [apply with_dir_isdir|].
    by apply date_search_sound in Hdate as (? & ? & _).
  - intros Hnone. rewrite form_dir_unnamed by by apply find_none.
    split; [done|]. split; [apply with_dir_isdir|apply strftime_is_date].
Qed.

(** C5.  The path returned is not always [data_dir/form/date].  For the
    form whose XML part is named [/tmp/x_2010-03-03_01-49-09.xml] and the
    data directory [data], the pattern finds the first group [/tmp/x_] and
    the date [2010-03-03_01-49-09], the loop leaves with these, and
    [os.path.join] drops the data directory in front of the first group,
    which starts with a slash: the path computed and returned is
    [/tmp/x_/2010-03-03_01-49-09], not [data//tmp/x_/2010-03-03_01-49-09],
    and it does not start with the data directory. *)
Theorem C5_returned_path_drops_data_dir :
  let form_fields := Scenario.rooted in
  let r := Server.MakeDataDirForForm Scenario.server Scenario.noon
             form_fields Fs.empty in
  Server.data_dir Scenario.server = "data" /\
  Model.filenames form_fields = ["/tmp/x_2010-03-03_01-49-09.xml"] /\
  Re.date_search "/tmp/x_2010-03-03_01-49-09.xml"
  = Some ("/tmp/x_", "2010-03-03_01-49-09") /\
  Server.scan_fields form_fields (Cgi.keys form_fields) "unnamed" None
  = Ok ("/tmp/x_", Some "2010-03-03_01-49-09") /\
  OsPath.join "data" ["/tmp/x_"; "2010-03-03_01-49-09"]
  = "/tmp/x_/2010-03-03_01-49-09" /\
  snd r = Ok "/tmp/x_/2010-03-03_01-49-09" /\
  snd r <> Ok ("data" +:+ "/" +:+ "/tmp/x_" +:+ "/" +:+ "2010-03-03_01-49-09") /\
  PyStr.startswith "data" "/tmp/x_/2010-03-03_01-49-09" = false.
Proof. vm_compute. repeat split. discriminate. Qed.




(** C7, as stated, fails: the scheme of [Location] is the fixed text [http],
    whatever the scheme of the request.  A request made over [https] to
    the host [odk.example.org] is answered with
    [Location: http://odk.example.org]. *)
Lemma C7_scheme_is_fixed :
  let r := Server.submission Scenario.server Scenario.secure_request
             Scenario.noon Scenario.basic Fs.empty in
  Http.header Scenario.secure_request "Host" = Ok "odk.example.org" /\
  Model.location r = Some "http://odk.example.org" /\
  Model.location r
  <> Some (Http.scheme Scenario.secure_request +:+ "://" +:+ "odk.example.org").
Proof. vm_compute. repeat split. discriminate. Qed.

(** C7, amended.  Whenever [submission] answers a request, whatever the
    form and the file system, the request has a [Host] header, the status of
    the answer is 201, and its one header is [Location], whose value is
    [http://] followed by the value of the [Host] header of the request. *)
Theorem C7_created_with_location self req now form_fields fs fs' resp :
  Server.submission self req now form_fields fs = (fs', Ok resp) ->
  exists host,
    Http.header req "Host" = Ok host /\
    Http.status resp = 201 /\
    Http.response_headers resp = [("Location", "http://" +:+ host)].
Proof.
  intros H. apply submission_answered in H as (_ & host & Hhost & _ & ->).
  by exists host.
Qed.

Lemma C7_created_with_location_witness :
  exists host,
    Http.header Scenario.request "Host" = Ok host /\
    Http.status
      {| Http.status := 201;
         Http.response_headers := [("Location", "http://odk.example.org:8080")];
         Http.body :=
           "Stored: data/basic_/2010-03-03_01-49-09/Basic_2010-03-03_01-49-09.xml<br>"
           +:+ "Stored: data/basic_/2010-03-03_01-49-09/photo1.jpg<br>" |}
    = 201 /\
    Http.response_headers
      {| Http.status := 201;
         Http.response_headers := [("Location", "http://odk.example.org:8080")];
         Http.body :=
           "Stored: data/basic_/2010-03-03_01-49-09/Basic_2010-03-03_01-49-09.xml<br>"
           +:+ "Stored: data/basic_/2010-03-03_01-49-09/photo1.jpg<br>" |}
    = [("Location", "http://" +:+ host)].
Proof.
  apply (C7_created_with_location Scenario.server Scenario.request
           Scenario.noon Scenario.basic Fs.empty
           (fst (Server.submission Scenario.server Scenario.request
                   Scenario.noon Scenario.basic Fs.empty))).
  reflexivity.
Defined.






(** The same on a whole request: the part [/etc/cron.d/x.xml] is stored at
    that very path, and nothing is stored in the directory of the
    submission. *)
Example absolute_filename_run :
  let r := Server.submission Scenario.server Scenario.request Scenario.noon
             Scenario.absolute Fs.empty in
  Fs.isdir "data/unnamed/2010-03-04_12-00-00" (fst r) = true /\
  Model.stored r = ["/etc/cron.d/x.xml"] /\
  Fs.files (fst r) !! "/etc/cron.d/x.xml" = Some "<x/>".
Proof. vm_compute. repeat split. Qed.

(** C10.  The directory is made before the parts are looked at, and stays
    when none of them is kept, but it need not lie under the data
    directory.  On a server that keeps pictures only, the form whose XML
    part is named [/tmp/x_2010-03-03_01-49-09.xml] is answered with 201 and
    the note for [xml]; no file is stored, and the one directory made is
    [/tmp/x_/2010-03-03_01-49-09], outside the data directory [data]. *)
Theorem C10_directory_outside_data_dir :
  let r := Server.submission Scenario.pictures_only Scenario.request
             Scenario.noon Scenario.rooted Fs.empty in
  Server.data_dir Scenario.pictures_only = "data" /\
  snd r = Ok {| Http.status := 201;
                Http.response_headers :=
                  [("Location", "http://odk.example.org:8080")];
                Http.body := Server.not_configured "xml" |} /\
  Fs.files (fst r) = ∅ /\
  elements (Fs.dirs (fst r)) = ["/tmp/x_/2010-03-03_01-49-09"] /\
  PyStr.startswith "data" "/tmp/x_/2010-03-03_01-49-09" = false.
Proof. vm_compute. repeat split. Qed.

(** A form with a plain field: [MakeDataDirForForm] raises at the first
    method call on the missing file name, before any directory is made. *)
Example plain_field_run :
  Server.submission Scenario.server Scenario.request Scenario.noon
    Scenario.with_note Fs.empty
  = (Fs.empty,
     Raise (AttributeError "'NoneType' object has no attribute 'endswith'")).
Proof. reflexivity. Qed.

(** * Further properties of the code *)

(** ** Which requests [submission] answers *)

(** X2.  [submission] returns a response only if every part of the form
    carries a file name, the names of the fields differ, and the request
    has a [Host] header: in every other case it raises, whatever the file
    system does. *)
Theorem submission_answers_only_if self req now form_fields fs fs' resp :
  Server.submission self req now form_fields fs = (fs', Ok resp) ->
  NoDup (List.map Cgi.name form_fields) /\
  Forall (fun item => exists filename, Cgi.filename item = Some filename)
         form_fields /\
  exists host, Http.header req "Host" = Ok host.
Proof.
  intros H. apply submission_answered in H as ([Hnd Hf] & host & Hhost & _).
  split; [done|]. split; [|by exists host].
  eapply Forall_impl; [exact Hf|]. by intros item [f ->]; exists f.
Qed.

Lemma submission_answers_only_if_witness :
  NoDup (List.map Cgi.name Scenario.basic) /\
  Forall (fun item => exists filename, Cgi.filename item = Some filename)
         Scenario.basic /\
  exists host, Http.header Scenario.request "Host" = Ok host.
Proof.
  apply (submission_answers_only_if Scenario.server Scenario.request
           Scenario.noon Scenario.basic Fs.empty
           (fst (Server.submission Scenario.server Scenario.request
                   Scenario.noon Scenario.basic Fs.empty))
           {| Http.status := 201;
              Http.response_headers :=
                [("Location", "http://odk.example.org:8080")];
              Http.body :=
                "Stored: data/basic_/2010-03-03_01-49-09/Basic_2010-03-03_01-49-09.xml<br>"
                +:+ "Stored: data/basic_/2010-03-03_01-49-09/photo1.jpg<br>" |}).
  reflexivity.
Defined.

(** ** What a request that is not answered leaves behind *)
Section Partial.

Variable self : Server.fileUpload.
Variable form_fields : list Cgi.part.
Hypothesis names_differ_here : NoDup (List.map Cgi.name form_fields).

Lemma keys_names : Cgi.keys form_fields = List.map Cgi.name form_fields.
Proof. unfold Cgi.keys. by rewrite keys_from. Qed.

Lemma getitem_named item :
  item ∈ form_fields ->
  Cgi.getitem form_fields (Cgi.name item) = Ok (Cgi.One item).
Proof. intros Hin. unfold Cgi.getitem. by rewrite filter_name_one. Qed.

Lemma name_and_date_skip file_name file_names :
  Model.timestamped file_name = false ->
  Model.name_and_date (file_name :: file_names)
  = Model.name_and_date file_names.
Proof. intros H. unfold Model.name_and_date. simpl. by rewrite H. Qed.

Lemma scan_fields_prefix pre rest :
  (forall item, item ∈ pre -> item ∈ form_fields) ->
  Forall (fun item => is_Some (Cgi.filename item)) pre ->
  Server.scan_fields form_fields (List.map Cgi.name pre ++ rest)%list
    "unnamed" None
  = match List.find Model.timestamped (Model.filenames pre) with
    | Some _ => Ok (Model.name_and_date (Model.filenames pre))
    | None => Server.scan_fields form_fields rest "unnamed" None
    end.
Proof.
  intros Hsub Hpre. induction Hpre as [|item pre [f Hf] _ IH]; [done|].
  assert (item ∈ form_fields) as Hin by (apply Hsub; left).
  cbn [List.map app Server.scan_fields].
  rewrite (getitem_named _ Hin), (filenames_cons _ _ _ Hf).
  cbn [mbind result_bind Cgi.get_filename]. rewrite Hf.
  cbn [receiver List.find mbind result_bind].
  rewrite IH by (intros i Hi; apply Hsub; by right).
  destruct (Model.timestamped f) eqn:Ht.
  - pose proof Ht as Ht'. unfold Model.timestamped in Ht'.
    apply andb_true_iff in Ht' as [Hx Hd].
    rewrite Hx. unfold Model.name_and_date. cbn [List.find]. rewrite Ht.
    by destruct (Re.date_search f) as [[g1 g2]|].
  - rewrite (name_and_date_skip _ _ Ht).
    unfold Model.timestamped in Ht.
    destruct (PyStr.endswith ".xml" f); [|done].
    by destruct (Re.date_search f) as [[g1 g2]|].
Qed.




End Partial.

(** X3.  A part without file name (a plain form field) that comes before
    any XML part with a date, in a form whose field names differ and whose
    earlier parts carry file names: [submission] raises [AttributeError]
    inside [MakeDataDirForForm], and the file system is as before: no
    directory is made and no part is stored, not even the parts that came
    first. *)
Theorem plain_field_before_any_date self req now pre item post fs :
  NoDup (List.map Cgi.name (pre ++ item :: post)%list) ->
  Forall (fun i => is_Some (Cgi.filename i)) pre ->
  Cgi.filename item = None ->
  List.find Model.timestamped (Model.filenames pre) = None ->
  Server.submission self req now (pre ++ item :: post)%list fs
  = (fs, Raise (AttributeError "'NoneType' object has no attribute 'endswith'")).
Proof.
  intros Hnd Hpre Hnone Hfind.
  assert (forall i, i ∈ pre -> i ∈ (pre ++ item :: post)%list) as Hsub
    by (intros i Hi; apply elem_of_app; by left).
  assert (item ∈ (pre ++ item :: post)%list) as Hin
    by (apply elem_of_app; right; left).
  unfold Server.submission, Server.MakeDataDirForForm.
  rewrite (keys_names _ Hnd), map_app. cbn [List.map].
  rewrite (scan_fields_prefix _ Hnd _ _ Hsub Hpre), Hfind.
  cbn [Server.scan_fields]. rewrite (getitem_named _ Hnd _ Hin).
  cbn [mbind result_bind Cgi.get_filename]. by rewrite Hnone.
Qed.

Lemma plain_field_before_any_date_witness :
  Server.submission Scenario.server Scenario.request Scenario.noon
    ([Cases.photo] ++ Cases.note :: [Cases.xml])%list Fs.empty
  = (Fs.empty,
     Raise (AttributeError "'NoneType' object has no attribute 'endswith'")).
Proof.
  apply (plain_field_before_any_date Scenario.server Scenario.request
           Scenario.noon [Cases.photo] Cases.note [Cases.xml] Fs.empty).
  - apply (bool_decide_unpack _). by vm_compute.
  - repeat constructor; by eexists.
  - reflexivity.
  - reflexivity.
Defined.




Lemma keys_from_head (l : list Cgi.part) (a : string) (acc : list string) :
  exists tail,
    fold_left
      (fun keys item =>
         if PyStr.mem (Cgi.name item) keys then keys
         else (keys ++ [Cgi.name item])%list)
      l (a :: acc)
    = a :: tail.
Proof.
  revert acc. induction l as [|item l IH]; intros acc; simpl.
  - by exists acc.
  - destruct (_ || _); apply IH.
Qed.

Lemma filter_name_present key (l : list Cgi.part) :
  key ∈ List.map Cgi.name l ->
  exists item found,
    List.filter (fun i => String.eqb (Cgi.name i) key) l = item :: found.
Proof.
  intros H. apply list_elem_of_In, in_map_iff in H as (p & Hname & Hp).
  assert (In p (List.filter (fun i => String.eqb (Cgi.name i) key) l)) as Hf
    by (apply filter_In; split; [done|by apply String.eqb_eq]).
  destruct (List.filter _ l) as [|item found]; [done|]. by exists item, found.
Qed.

(** X5.  Two parts under one field name: when the name of the first part of
    a form comes again later, [form_fields[field]] is a list, and
    [submission] raises [AttributeError] at the first field, before any
    directory is made or file stored. *)
Theorem repeated_field_name self req now item rest fs :
  Cgi.name item ∈ List.map Cgi.name rest ->
  Server.submission self req now (item :: rest) fs
  = (fs, Raise (AttributeError "'list' object has no attribute 'filename'")).
Proof.
  intros H. unfold Server.submission, Server.MakeDataDirForForm.
  unfold Cgi.keys. cbn [fold_left PyStr.mem existsb app].
  destruct (keys_from_head rest (Cgi.name item) []) as [tail ->].
  cbn [Server.scan_fields]. unfold Cgi.getitem at 1. cbn [List.filter].
  rewrite String.eqb_refl.
  destruct (filter_name_present _ _ H) as (i & found & ->).
  reflexivity.
Qed.

Lemma repeated_field_name_witness :
  Server.submission Scenario.server Scenario.request Scenario.noon
    (Cases.photo :: [Cases.xml; Cases.photo_again]) Fs.empty
  = (Fs.empty,
     Raise (AttributeError "'list' object has no attribute 'filename'")).
Proof.
  apply (repeated_field_name Scenario.server Scenario.request Scenario.noon
           Cases.photo [Cases.xml; Cases.photo_again] Fs.empty).
  apply (bool_decide_unpack _). by vm_compute.
Defined.

(** X6.  A request without [Host] header whose form is in order is never
    answered, and the header is looked up last: when the request ends with
    the [KeyError] of the lookup, the directory has been made and every
    part has been stored or skipped as in an answered request.  The client
    gets no 201 although its files are on disk. *)
Theorem missing_host_after_storing self req now form_fields fs e :
  Model.well_formed form_fields ->
  Http.header req "Host" = Raise e ->
  let submission_dir :=
    Model.form_dir self now (Model.filenames form_fields) in
  let r := Server.submission self req now form_fields fs in
  e = KeyError "Host" /\
  (forall resp, snd r <> Ok resp) /\
  (snd r = Raise (KeyError "Host") ->
   fst r = fold_left (Model.place self submission_dir) form_fields
             (Model.with_dir submission_dir fs)).
Proof.
  intros Hok Hhost dir r.
  assert (e = KeyError "Host") as He.
  { unfold Http.header in Hhost. destruct (List.find _ _); [done|].
    by injection Hhost. }
  split; [done|].
  assert (r = (fold_left (Model.place self dir) form_fields
                 (Model.with_dir dir fs), Raise e)) as ->; [|by split].
  subst r. unfold Server.submission.
  unfold mbind at 1, M_bind at 1. rewrite (MakeDataDirForForm_spec _ _ Hok).
  unfold mbind at 1, M_bind at 1.
  rewrite (keys_well_formed _ Hok), (store_fields_spec _ _ Hok) by done.
  unfold mbind, M_bind, lift. by rewrite Hhost.
Qed.

Lemma missing_host_after_storing_witness :
  let submission_dir :=
    Model.form_dir Scenario.server Scenario.noon
      (Model.filenames Scenario.basic) in
  let r := Server.submission Scenario.server Cases.no_host Scenario.noon
             Scenario.basic Fs.empty in
  KeyError "Host" = KeyError "Host" /\
  (forall resp, snd r <> Ok resp) /\
  (snd r = Raise (KeyError "Host") ->
   fst r = fold_left (Model.place Scenario.server submission_dir) Scenario.basic
             (Model.with_dir submission_dir Fs.empty)).
Proof.
  apply (missing_host_after_storing Scenario.server Cases.no_host
           Scenario.noon Scenario.basic Fs.empty (KeyError "Host")).
  - apply basic_well_formed.
  - reflexivity.
Defined.

(** ** What [submission] does to the files *)
Section Files.

Variable self : Server.fileUpload.
Variable submission_dir : string.



End Files.




(** ** The directory of a submission *)
Section Directories.


End Directories.

(** ** Where the paths lie *)
Section Layout.














End Layout.





(** ** [formList] without [Host] header *)

(** X12.  The [Host] header is looked up once per form, inside the loop:
    for a request without it, [formList] raises the [KeyError] as soon as
    [glob] finds one form, and answers the empty list of forms when it
    finds none; with a forms directory whose path holds no pattern
    character, [glob] finds a form exactly when an entry of the directory
    listed matches [*.xml]. *)
Theorem formList_without_host self req seen e :
  Http.header req "Host" = Raise e ->
  Server.formList self req seen
  = (match
       Glob.glob_xml seen (OsPath.join (Server.forms_dir self) ["*.xml"])
     with
     | [] =>
         Ok (Http.plain ("<forms>" +:+ String nl "" +:+ "</forms>"
                           +:+ String nl ""))
     | _ :: _ => Raise e
     end)
  /\ e = KeyError "Host"
  /\ (Glob.has_magic (Server.forms_dir self) = false ->
      Glob.glob_xml seen (OsPath.join (Server.forms_dir self) ["*.xml"]) = []
      <-> List.filter Glob.star_xml
            (Glob.listdir seen (Model.listed_dir self)) = []).
Proof.
  intros Hhost. split; [|split].
  - unfold Server.formList.
    destruct (Glob.glob_xml seen _) as [|entry entries].
    + reflexivity.
    + cbn [Server.form_lines]. by rewrite Hhost.
  - unfold Http.header in Hhost. destruct (List.find _ _); [done|].
    by injection Hhost.
  - intros Hplain. rewrite (glob_xml_plain _ _ Hplain).
    by destruct (List.filter _ _).
Qed.

Lemma formList_without_host_witness :
  Server.formList Scenario.server Cases.no_host Cases.four_forms
  = (match
       Glob.glob_xml Cases.four_forms
         (OsPath.join (Server.forms_dir Scenario.server) ["*.xml"])
     with
     | [] =>
         Ok (Http.plain ("<forms>" +:+ String nl "" +:+ "</forms>"
                           +:+ String nl ""))
     | _ :: _ => Raise (KeyError "Host")
     end)
  /\ KeyError "Host" = KeyError "Host"
  /\ (Glob.has_magic (Server.forms_dir Scenario.server) = false ->
      Glob.glob_xml Cases.four_forms
        (OsPath.join (Server.forms_dir Scenario.server) ["*.xml"]) = []
      <-> List.filter Glob.star_xml
            (Glob.listdir Cases.four_forms (Model.listed_dir Scenario.server))
          = []).
Proof.
  apply (formList_without_host Scenario.server Cases.no_host Cases.four_forms
           (KeyError "Host")).
  reflexivity.
Defined.

(** The two cases on directories: one with forms, one without. *)
Example formList_without_host_runs :
  Server.formList Scenario.server Cases.no_host Cases.four_forms
  = Raise (KeyError "Host") /\
  Server.formList Scenario.server Cases.no_host Cases.no_forms
  = Ok (Http.plain ("<forms>" +:+ String nl "" +:+ "</forms>" +:+ String nl "")).
Proof. split; reflexivity. Qed.

(** ** The pattern, in full *)
Section PatternSpec.

Lemma app_same_length (a b x y : string) :
  PyStr.len a = PyStr.len b -> a +:+ x = b +:+ y -> a = b /\ x = y.
Proof.
  revert b. induction a as [|c a IH]; intros [|d b] Hlen H; try done.
  rewrite !str_app_cons in H. injection H as -> H.
  injection Hlen as Hlen. destruct (IH _ Hlen H) as [-> ->]. done.
Qed.


Lemma is_date_len d : Model.is_date d -> PyStr.len d = 19.
Proof. intros H. by apply match_items_sound in H as (_ & _ & ->). Qed.

End PatternSpec.

(** X13.  What the pattern finds: [search] gives the groups [(g1, g2)] on a
    name exactly when the name is [g1], then [g2], then a rest, with [g2] a
    date [dddd-dd-dd_dd-dd-dd] and no newline in [g1], and [g1] is the
    longest such beginning of the name: of several dates in a name the last
    one counts. *)
Theorem date_search_longest_prefix s g1 g2 :
  Re.date_search s = Some (g1, g2)
  <->
  ((exists rest, s = g1 +:+ g2 +:+ rest) /\
   Model.is_date g2 /\ Model.no_char nl g1 = true /\
   forall h1 h2 rest,
     s = h1 +:+ h2 +:+ rest -> Model.is_date h2 ->
     Model.no_char nl h1 = true -> PyStr.len h1 <= PyStr.len g1).
Proof.
  split.
  - intros H. pose proof (date_search_sound _ _ _ H) as (Hs & Hd & _ & Hn).
    repeat split; try done.
    intros h1 h2 rest -> Hd' Hn'.
    destruct (date_search_greedy h1 h2 rest Hn' Hd') as (k1 & k2 & Hk & Hle).
    rewrite H in Hk. by injection Hk as <- <-.
  - intros ([rest ->] & Hd & Hn & Hmax).
    destruct (date_search_greedy g1 g2 rest Hn Hd) as (k1 & k2 & Hk & Hle).
    rewrite Hk.
    pose proof (date_search_sound _ _ _ Hk) as ([rest' Hs] & Hd' & _ & Hn').
    pose proof (Hmax _ _ _ Hs Hd' Hn') as Hge.
    assert (PyStr.len g1 = PyStr.len k1) as Hlen by lia.
    destruct (app_same_length _ _ _ _ Hlen Hs) as [<- Hs'].
    assert (PyStr.len g2 = PyStr.len k2) as Hlen2
      by (by rewrite !is_date_len).
    by destruct (app_same_length _ _ _ _ Hlen2 Hs') as [<- _].
Qed.

(** ** Names as ODK Collect writes them *)
Section CollectNames.









End CollectNames.



(** ** More on the sanitizing and on extensions *)

(** X15.  A file name without slash and without backslash is stored under
    that very name: the sanitizing leaves it as it is. *)
Theorem sanitize_plain_name filename :
  Model.no_char "/" filename = true ->
  Model.no_char "\" filename = true ->
  Server.sanitize filename = filename.
Proof.
  intros Hs Hb. apply sanitize_fixed_iff. unfold Model.clean.
  pose proof (no_char_no_substring "/" ".." "" _ Hs) as H1.
  pose proof (no_char_no_substring "\" ".." "" _ Hb) as H2.
  change (".." +:+ String "/" "") with "../" in H1.
  change (".." +:+ String "\" "") with "..\" in H2.
  by rewrite H1, H2.
Qed.

Lemma sanitize_plain_name_witness :
  Server.sanitize "Basic_2010-03-03_01-49-09.xml"
  = "Basic_2010-03-03_01-49-09.xml".
Proof.
  apply (sanitize_plain_name "Basic_2010-03-03_01-49-09.xml"); reflexivity.
Defined.

(** X16.  The sanitizing only takes characters away: the result is never
    longer than the name, and it is shorter exactly for the names that hold
    [../] or [..\]. *)
Theorem sanitize_only_shortens filename :
  PyStr.len (Server.sanitize filename) <= PyStr.len filename /\
  (PyStr.len (Server.sanitize filename) < PyStr.len filename
   <-> Model.clean filename = false).
Proof.
  pose proof (sanitize_len_le filename) as Hle. split; [done|].
  destruct (Model.clean filename) eqn:Hc.
  - apply sanitize_fixed_iff in Hc. rewrite Hc. split; [lia|done].
  - split; [done|]. intros _. unfold Model.clean in Hc.
    unfold Server.sanitize.
    destruct (PyStr.contains "../" filename) eqn:C1.
    + apply removal_shrinks in C1; [|done].
      pose proof (removal_len_le "..\" 0 (PyStr.replace filename "../" ""))
        as H2.
      unfold PyStr.replace in *. lia.
    + rewrite (removal_absent _ _ C1).
      destruct (PyStr.contains "..\" filename) eqn:C2; [|done].
      by apply removal_shrinks.
Qed.

(** X17.  The extension [submission] compares with the allowed types is the
    text after the last dot of the file name, when no slash follows that
    dot; the text before the dot plays no role. *)
Theorem extension_after_last_dot base ext :
  Model.no_char "." ext = true ->
  Model.no_char "/" ext = true ->
  OsPath.splitext (base +:+ "." +:+ ext) = (base, "." +:+ ext) /\
  PyStr.replace (snd (OsPath.splitext (base +:+ "." +:+ ext))) "." "" = ext.
Proof.
  intros Hd Hs.
  assert (OsPath.splitext (base +:+ "." +:+ ext) = (base, "." +:+ ext)) as E.
  { unfold OsPath.splitext.
    change (base +:+ "." +:+ ext) with (base +:+ String "." ext).
    rewrite (rfind_last "." base ext (rfind_absent _ _ Hd)).
    assert (PyStr.rfind "/" (String "." ext) = (-1)%Z) as Hs'.
    { cbn [PyStr.rfind]. by rewrite (rfind_absent _ _ Hs). }
    rewrite (rfind_app_absent _ _ _ Hs').
    pose proof (rfind_lt "/" base).
    destruct (Z.leb_spec (Z.of_nat (PyStr.len base)) (PyStr.rfind "/" base));
      [lia|].
    rewrite Nat2Z.id. by rewrite take_app, drop_app. }
  split; [done|]. rewrite E. cbn [snd].
  unfold PyStr.replace. change ("." +:+ ext) with (String "." ext).
  cbn [PyStr.replace_from PyStr.startswith]. rewrite Ascii.eqb_refl.
  cbn [andb PyStr.len String.length Nat.sub]. rewrite str_app_nil_l.
  apply removal_absent. unfold Model.no_char in Hd.
  by apply negb_true_iff in Hd.
Qed.

Lemma extension_after_last_dot_witness :
  OsPath.splitext ("../a.b/archive.tar" +:+ "." +:+ "gz")
  = ("../a.b/archive.tar", "." +:+ "gz") /\
  PyStr.replace (snd (OsPath.splitext ("../a.b/archive.tar" +:+ "." +:+ "gz")))
    "." "" = "gz".
Proof.
  apply (extension_after_last_dot "../a.b/archive.tar" "gz"); reflexivity.
Defined.

(** ** The allowed types and the test page *)
Section Types.

Lemma split_not_nil sep s : PyStr.split sep s <> [].
Proof.
  destruct s as [|c s]; [done|]. cbn [PyStr.split].
  destruct (Ascii.eqb c sep); [done|]. by destruct (PyStr.split sep s).
Qed.

Lemma join_cons_char sep c h (t : list string) :
  Pages.join sep (String c h :: t) = String c (Pages.join sep (h :: t)).
Proof. by destruct t. Qed.

Lemma join_split_replace (new : string) s :
  Pages.join new (PyStr.split "," s) = PyStr.replace s "," new.
Proof.
  unfold PyStr.replace. induction s as [|c s IH]; [done|].
  cbn [PyStr.split PyStr.replace_from PyStr.startswith].
  rewrite andb_true_r, (Ascii.eqb_sym "," c).
  pose proof (split_not_nil "," s) as Hne.
  destruct (Ascii.eqb c ",").
  - cbn [PyStr.len String.length Nat.sub]. rewrite <- IH.
    destruct (PyStr.split "," s) as [|h t]; [done|].
    cbn [Pages.join]. by rewrite str_app_nil_l.
  - destruct (PyStr.split "," s) as [|h t]; [done|].
    by rewrite join_cons_char, IH.
Qed.

Lemma replace_same s : PyStr.replace s "," "," = s.
Proof.
  unfold PyStr.replace. induction s as [|c s IH]; [done|].
  cbn [PyStr.replace_from PyStr.startswith]. rewrite andb_true_r.
  destruct (Ascii.eqb_spec "," c) as [<-|_].
  - cbn [PyStr.len String.length Nat.sub]. by rewrite IH.
  - by rewrite IH.
Qed.

Lemma split_no_sep sep s :
  Forall (fun field => Model.no_char sep field = true) (PyStr.split sep s).
Proof.
  induction s as [|c s IH]; [by repeat constructor|].
  cbn [PyStr.split]. destruct (Ascii.eqb c sep) eqn:E.
  - by constructor.
  - assert (forall h, Model.no_char sep h = true ->
                      Model.no_char sep (String c h) = true) as Hc.
    { intros h Hh. by rewrite no_char_cons, Ascii.eqb_sym, E, Hh. }
    destruct (PyStr.split sep s) as [|h t].
    + constructor; [by apply Hc|constructor].
    + apply Forall_cons in IH as [Hh Ht]. constructor; [by apply Hc|done].
Qed.

End Types.

(** X18.  The allowed types a server is made with are the option text cut
    at its commas: there is always at least one type (the empty text gives
    the one type with no character, so a server started with an empty list
    keeps the files without extension), no type holds a comma, and the
    types put together again with commas are the option text. *)
Theorem allowed_types_of_option data_dir forms_dir option :
  let types := Server.allowed_file_types (Server.init data_dir forms_dir option) in
  types <> [] /\
  Forall (fun type => Model.no_char "," type = true) types /\
  Pages.join "," types = option /\
  Server.allowed_file_types (Server.init data_dir forms_dir "") = [""].
Proof.
  cbv zeta. cbn [Server.init Server.allowed_file_types].
  split; [apply split_not_nil|]. split; [apply split_no_sep|].
  split; [|done]. by rewrite join_split_replace, replace_same.
Qed.

(** X19.  The test page shows the allowed types as the option text with a
    blank put after every comma, between the fixed beginning and end of the
    page; [index] reads nothing else of the server. *)
Theorem index_shows_allowed_types data_dir forms_dir option :
  Pages.index (Server.init data_dir forms_dir option)
  = Pages.index_head +:+ PyStr.replace option "," ", " +:+ Pages.index_tail.
Proof.
  unfold Pages.index. cbn [Server.init Server.allowed_file_types].
  by rewrite join_split_replace.
Qed.

(** ** The temporary files *)

(** X20.  [__del__] of a wrapper never raises; it removes the file of the
    wrapper if there is one and changes nothing else, it leaves the wrapper
    closed, and a second [__del__] finds nothing left to do.  [close] alone
    sets the flag once and for all. *)
Theorem del_removes_own_file_once self fs :
  let r := Tempfile.del self fs in
  snd r = Ok (Tempfile.close self) /\
  Fs.files (fst r) = delete (Tempfile.name self) (Fs.files fs) /\
  Fs.dirs (fst r) = Fs.dirs fs /\
  Tempfile.del (Tempfile.close self) (fst r) = (fst r, Ok (Tempfile.close self)) /\
  Tempfile.close (Tempfile.close self) = Tempfile.close self /\
  Tempfile.close_called (Tempfile.close self) = true /\
  Tempfile.name (Tempfile.close self) = Tempfile.name self.
Proof.
  assert (Tempfile.close (Tempfile.close self) = Tempfile.close self
          /\ Tempfile.close_called (Tempfile.close self) = true
          /\ Tempfile.name (Tempfile.close self) = Tempfile.name self)
    as (Hcc & Hflag & Hname).
  { unfold Tempfile.close. destruct self as [n []]; by cbn. }
  cbv zeta. unfold Tempfile.del. rewrite Hcc, Hname.
  unfold mbind, M_bind, get_fs, modify_fs, mret, M_ret, Tempfile.isfile.
  destruct (decide (is_Some (Fs.files fs !! Tempfile.name self))) as [Hs|Hn].
  - rewrite (bool_decide_eq_true_2 _ Hs). cbn [fst snd Tempfile.unlink Fs.files Fs.dirs].
    repeat split; try done.
    rewrite bool_decide_eq_false_2; [done|].
    rewrite lookup_delete_eq. by intros [? ?].
  - rewrite (bool_decide_eq_false_2 _ Hn). cbn [fst snd].
    rewrite (bool_decide_eq_false_2 _ Hn).
    repeat split; try done.
    symmetry. apply delete_id. by apply eq_None_not_Some.
Qed.

(** X21.  After [shutil.move] has put the temporary file of a part at a
    target path other than its own path, [__del__] of its wrapper changes
    nothing: the stored file stays, with the bytes of the part. *)
Theorem del_after_move_keeps_stored_file self data dst fs :
  Tempfile.name self <> dst ->
  let moved := Fs.move (Tempfile.name self) data dst fs in
  Tempfile.del self moved = (moved, Ok (Tempfile.close self)) /\
  Fs.files moved !! dst = Some data /\
  Tempfile.isfile (Tempfile.name self) moved = false.
Proof.
  intros Hne moved.
  assert (Fs.files moved !! Tempfile.name self = None) as Hgone.
  { subst moved. cbn [Fs.move Fs.files].
    rewrite lookup_insert_ne by done. apply lookup_delete_eq. }
  assert (Tempfile.isfile (Tempfile.name self) moved = false) as Hno.
  { unfold Tempfile.isfile. apply bool_decide_eq_false_2. rewrite Hgone.
    by intros [? ?]. }
  split; [|split; [|done]].
  - unfold Tempfile.del.
    assert (Tempfile.name (Tempfile.close self) = Tempfile.name self) as ->
      by (unfold Tempfile.close; by destruct self as [n []]).
    unfold mbind, M_bind, get_fs. by rewrite Hno.
  - subst moved. cbn [Fs.move Fs.files]. apply lookup_insert_eq.
Qed.

Lemma del_after_move_witness :
  Tempfile.del
    {| Tempfile.name := "/tmp/tmpq3Zx1k"; Tempfile.close_called := true |}
    (Fs.move "/tmp/tmpq3Zx1k" "PNG" "data/unnamed/x/clip.png" Cases.earlier)
  = (Fs.move "/tmp/tmpq3Zx1k" "PNG" "data/unnamed/x/clip.png" Cases.earlier,
     Ok (Tempfile.close
           {| Tempfile.name := "/tmp/tmpq3Zx1k";
              Tempfile.close_called := true |})) /\
  Fs.files
    (Fs.move "/tmp/tmpq3Zx1k" "PNG" "data/unnamed/x/clip.png" Cases.earlier)
    !! "data/unnamed/x/clip.png" = Some "PNG" /\
  Tempfile.isfile "/tmp/tmpq3Zx1k"
    (Fs.move "/tmp/tmpq3Zx1k" "PNG" "data/unnamed/x/clip.png" Cases.earlier)
  = false.
Proof.
  apply (del_after_move_keeps_stored_file
           {| Tempfile.name := "/tmp/tmpq3Zx1k"; Tempfile.close_called := true |}
           "PNG" "data/unnamed/x/clip.png" Cases.earlier).
  discriminate.
Defined.

(** [make_file] gives a wrapper that is not closed, around a file
    that exists and is empty; closing the wrapper leaves the file where it
    is, and only [__del__] takes it away. *)
Theorem make_file_survives_close fresh fs :
  let r := Tempfile.make_file fresh fs in
  exists self,
    snd r = Ok self /\ Tempfile.name self = fresh /\
    Tempfile.close_called self = false /\
    Fs.files (fst r) !! fresh = Some "" /\
    Tempfile.isfile (Tempfile.name (Tempfile.close self)) (fst r) = true /\
    Tempfile.isfile fresh (fst (Tempfile.del self (fst r))) = false.
Proof.
  set (self := {| Tempfile.name := fresh; Tempfile.close_called := false |}).
  set (made := Fs.write fresh "" fs).
  assert (Tempfile.make_file fresh fs = (made, Ok self)) as -> by reflexivity.
  assert (Fs.files made !! fresh = Some "") as Hfile
    by apply lookup_insert_eq.
  assert (Tempfile.isfile fresh made = true) as Hthere.
  { unfold Tempfile.isfile. apply bool_decide_eq_true_2. by rewrite Hfile. }
  assert (Tempfile.del self made
          = (Tempfile.unlink fresh made, Ok (Tempfile.close self))) as Hdel.
  { unfold Tempfile.del, mbind, M_bind, get_fs, modify_fs.
    change (Tempfile.name (Tempfile.close self)) with fresh.
    by rewrite Hthere. }
  cbv zeta. cbn [fst snd]. exists self. rewrite Hdel. cbn [fst].
  repeat split; try done.
  unfold Tempfile.isfile. apply bool_decide_eq_false_2.
  cbn [Tempfile.unlink Fs.files]. rewrite lookup_delete_eq. by intros [? ?].
Qed.

(** ** The body of the answer *)



(** ** Sending a submission again *)
Section Retry.

Variable self : Server.fileUpload.
Variable submission_dir : string.




End Retry.



